(** * CloudSettingsService: a shallow embedding and its properties

    Source: packages/core/src/config/cloudSettingsService.ts

    The service reads a project identifier from the process environment,
    builds the download URL of [settings.json] in the project's bucket,
    asks the OAuth collaborator for a client, issues one GET and classifies
    what comes back.  The embedding follows the TypeScript statement by
    statement: JavaScript values are an inductive type, evaluation is a
    small monad whose completions are the three ways a JavaScript statement
    list can end (normally, by [return], by [throw]) and whose state is the
    chronological trace of the observable events (log lines and calls of the
    collaborators). *)

From Stdlib Require Import ZArith List.
From stdpp Require Import base strings gmap pretty.

Local Open Scope Z_scope.
Local Set Warnings "-register-all".

(** ** JavaScript values *)

(** The numbers that matter to the service are HTTP statuses and error
    codes.  [Int z] is the integral number [z] (the two zeroes are not
    distinguished: no operation used here tells them apart). *)
Inductive Number : Type :=
| NaN
| Infinity (negative : bool)
| Int (z : Z).

(** The ECMAScript language types.  Of the objects, plain data objects (own
    data properties in insertion order), arrays and [Error] instances are
    modelled; [JError name message props] is an error whose effective
    [name] and [message] are the given strings and whose further own
    properties are [props] (for instance [code] and [response]). *)
Inductive JsVal : Type :=
| JUndefined
| JNull
| JBool (b : bool)
| JNum (n : Number)
| JBigInt (z : Z)
| JStr (s : string)
| JSymbol (description : string)
| JArr (elems : list JsVal)
| JObj (props : list (string * JsVal))
| JError (name message : string) (props : list (string * JsVal)).

Definition TypeError (message : string) : JsVal :=
  JError "TypeError" message [].

(** Evaluating an expression gives a value or raises. *)
Inductive Result (A : Type) : Type :=
| Value (a : A)
| Exception (e : JsVal).
Arguments Value {A} a.
Arguments Exception {A} e.

(** [typeof v] *)
Definition typeof (v : JsVal) : string :=
  match v with
  | JUndefined => "undefined"
  | JNull => "object"
  | JBool _ => "boolean"
  | JNum _ => "number"
  | JBigInt _ => "bigint"
  | JStr _ => "string"
  | JSymbol _ => "symbol"
  | JArr _ | JObj _ | JError _ _ _ => "object"
  end.

(** Truthiness, as used by [!v] and [a || b]. *)
Definition ToBoolean (v : JsVal) : bool :=
  match v with
  | JUndefined | JNull => false
  | JBool b => b
  | JNum NaN => false
  | JNum (Infinity _) => true
  | JNum (Int z) => negb (z =? 0)
  | JBigInt z => negb (z =? 0)
  | JStr s => negb (String.eqb s "")
  | JSymbol _ | JArr _ | JObj _ | JError _ _ _ => true
  end.

(** [a || b] on already evaluated operands (both operands of the two uses in
    the service are side-effect free property reads). *)
Definition logicalOr (a b : JsVal) : JsVal :=
  if ToBoolean a then a else b.

(** [v === k] for a number literal [k]. *)
Definition strictEqualsNumber (v : JsVal) (k : Z) : bool :=
  match v with
  | JNum (Int z) => z =? k
  | _ => false
  end.

(** Own data property lookup: the first entry with the key. *)
Fixpoint lookupProp (props : list (string * JsVal)) (key : string) : option JsVal :=
  match props with
  | [] => None
  | (k, v) :: rest => if String.eqb k key then Some v else lookupProp rest key
  end.

Definition hasOwn (props : list (string * JsVal)) (key : string) : bool :=
  match lookupProp props key with Some _ => true | None => false end.

(** [v.key] for a property name that no built-in prototype defines, which is
    the case for the four names the service reads ([code], [response],
    [status], [data]): reading from [undefined] or [null] throws, reading
    from another primitive or from an array gives [undefined], reading from
    an object gives the own property or [undefined]. *)
Definition Get (v : JsVal) (key : string) : Result JsVal :=
  match v with
  | JUndefined =>
      Exception (TypeError ("Cannot read properties of undefined (reading '" +:+ key +:+ "')"))
  | JNull =>
      Exception (TypeError ("Cannot read properties of null (reading '" +:+ key +:+ "')"))
  | JBool _ | JNum _ | JBigInt _ | JStr _ | JSymbol _ | JArr _ => Value JUndefined
  | JObj props => Value (default JUndefined (lookupProp props key))
  | JError name message props =>
      if String.eqb key "name" then Value (JStr name)
      else if String.eqb key "message" then Value (JStr message)
      else Value (default JUndefined (lookupProp props key))
  end.

(** [v?.key] *)
Definition GetOptional (v : JsVal) (key : string) : Result JsVal :=
  match v with
  | JUndefined | JNull => Value JUndefined
  | _ => Get v key
  end.

(** Number::toString for the modelled numbers: the decimal digits of [z].
    That is JavaScript's rendering of the safe integers (magnitude below
    2^53), HTTP statuses among them; a larger [z] need not be a number of
    JavaScript, and from 10^21 on JavaScript writes an exponent. *)
Definition NumberToString (n : Number) : string :=
  match n with
  | NaN => "NaN"
  | Infinity false => "Infinity"
  | Infinity true => "-Infinity"
  | Int z => pretty z
  end.

(** Error.prototype.toString for an error with string name and message. *)
Definition ErrorToString (name message : string) : string :=
  if String.eqb name "" then message
  else if String.eqb message "" then name
  else name +:+ ": " +:+ message.

(** Array.prototype.join with the default separator, over the conversion
    [toString] of an element: [undefined] and [null] elements give the empty
    string, and the first element that fails to convert ends the join. *)
Definition join (toString : JsVal -> Result string) : bool -> list JsVal -> Result string :=
  fix join (first : bool) (elems : list JsVal) : Result string :=
    match elems with
    | [] => Value ""
    | x :: rest =>
        match (match x with
               | JUndefined | JNull => Value ""
               | _ => toString x
               end) with
        | Value s =>
            match join false rest with
            | Value t => Value ((if first then "" else ",") +:+ s +:+ t)
            | Exception e => Exception e
            end
        | Exception e => Exception e
        end
    end.

(** ToString, the conversion a template literal applies to each substitution.
    It throws a TypeError on a symbol and on an object whose string
    conversion finds no usable method: with only data properties, an own
    [toString] property shadows the inherited method with a value that is
    not callable, and the inherited [valueOf] gives back the object.
    Objects with methods of their own are not among the values, so a
    [toString] that runs code, and what it returns or raises, is not
    covered. *)
Fixpoint ToString (v : JsVal) : Result string :=
  match v with
  | JUndefined => Value "undefined"
  | JNull => Value "null"
  | JBool true => Value "true"
  | JBool false => Value "false"
  | JNum n => Value (NumberToString n)
  | JBigInt z => Value (pretty z)
  | JStr s => Value s
  | JSymbol _ => Exception (TypeError "Cannot convert a Symbol value to a string")
  | JArr elems => join ToString true elems
  | JObj props =>
      if hasOwn props "toString"
      then Exception (TypeError "Cannot convert object to primitive value")
      else Value "[object Object]"
  | JError name message props =>
      if hasOwn props "toString"
      then Exception (TypeError "Cannot convert object to primitive value")
      else Value (ErrorToString name message)
  end.

(** ** Evaluation: completions over a trace of observable events *)

(** The ways a statement list ends. *)
Inductive Completion (A : Type) : Type :=
| Normal (a : A)
| Return (v : JsVal)
| Throw (e : JsVal).
Arguments Normal {A} a.
Arguments Return {A} v.
Arguments Throw {A} e.

(** What awaiting a promise gives. *)
Inductive Settled (A : Type) : Type :=
| Fulfilled (a : A)
| Rejected (e : JsVal).
Arguments Fulfilled {A} a.
Arguments Rejected {A} e.

(** The argument of [client.request]. *)
Record RequestOptions : Type := { url : string; method : string }.

(** The client handed out by the OAuth collaborator, seen through the one
    method the service calls. *)
Record Client : Type := { request : RequestOptions -> Settled JsVal }.

Section Service.

(** [Config] and [AuthType] are only imported as types by the service and
    handed on to [getOauthClient]. *)
Variables Config AuthType : Type.

Inductive Event : Type :=
| DebugLog (message : string)
| ConsoleError (message : string)
| GetOauthClient (authType : AuthType) (config : Config)
| ClientRequest (options : RequestOptions).

Definition Exec (A : Type) : Type := list Event -> Completion A * list Event.

#[global] Instance Exec_ret : MRet Exec :=
  fun A a tr => (Normal a, tr).

#[global] Instance Exec_bind : MBind Exec :=
  fun A B k m tr =>
    match m tr with
    | (Normal a, tr') => k a tr'
    | (Return v, tr') => (Return v, tr')
    | (Throw e, tr') => (Throw e, tr')
    end.

(** An expression evaluated as a statement: an exception becomes a throw. *)
Definition lift {A} (r : Result A) : Exec A :=
  fun tr =>
    match r with
    | Value a => (Normal a, tr)
    | Exception e => (Throw e, tr)
    end.

Definition emit (ev : Event) : Exec unit := fun tr => (Normal (), tr ++ [ev]).

(** [return v;] and [throw e;] *)
Definition return_ {A} (v : JsVal) : Exec A := fun tr => (Return v, tr).
Definition throw {A} (e : JsVal) : Exec A := fun tr => (Throw e, tr).

(** [try { body } catch (e) { handler }] *)
Definition tryCatch {A} (body : Exec A) (handler : JsVal -> Exec A) : Exec A :=
  fun tr =>
    match body tr with
    | (Throw e, tr') => handler e tr'
    | r => r
    end.

(** [if (b) { m }] *)
Definition when (b : bool) (m : Exec unit) : Exec unit :=
  if b then m else mret ().

(** [await p] *)
Definition await {A} (p : Settled A) : Exec A :=
  match p with
  | Fulfilled a => mret a
  | Rejected e => throw e
  end.

(** An async function settles its promise with the completion of its body. *)
Definition runAsync (body : Exec unit) : Settled JsVal * list Event :=
  match body [] with
  | (Normal _, tr) => (Fulfilled JUndefined, tr)
  | (Return v, tr) => (Fulfilled v, tr)
  | (Throw e, tr) => (Rejected e, tr)
  end.

(** *** The collaborators *)

(** Modelled from the spec: [debugLogger] (utils/debugLogger.js) is not
    among the sources; the spec describes it as the debug-level log channel
    that receives the narration, so a call appends one entry to that channel
    and returns. *)
Definition debugLogger_log (message : string) : Exec unit :=
  emit (DebugLog message).

(** [console.error(message)]: one entry on the standard error channel. *)
Definition console_error (message : string) : Exec unit :=
  emit (ConsoleError message).

(** [process.env] and the imported [getOauthClient] (code_assist/oauth2.js),
    whose promise settles one way or the other. *)
Variable process_env : gmap string string.
Variable getOauthClient : AuthType -> Config -> Settled Client.

(** [process.env[name]]: the string, or [undefined] when unset. *)
Definition env (name : string) : JsVal :=
  match process_env !! name with
  | Some s => JStr s
  | None => JUndefined
  end.

Definition call_getOauthClient (authType : AuthType) (config : Config) : Exec Client :=
  emit (GetOauthClient authType config);;
  await (getOauthClient authType config).

Definition call_request (client : Client) (options : RequestOptions) : Exec JsVal :=
  emit (ClientRequest options);;
  await (request client options).

(** *** loadSettings *)

(** Lines 35-37: the identifier read from the environment. *)
Definition projectId : JsVal :=
  logicalOr (env "GOOGLE_CLOUD_PROJECT") (env "GOOGLE_CLOUD_PROJECT_ID").

(** Line 58: [e.code || e.response?.status]; the right operand is only
    evaluated when the left one is falsy. *)
Definition errorStatus (e : JsVal) : Result JsVal :=
  match Get e "code" with
  | Value code =>
      if ToBoolean code then Value code
      else match Get e "response" with
           | Value response => GetOptional response "status"
           | Exception x => Exception x
           end
  | Exception x => Exception x
  end.

Definition loadSettings_body (config : Config) (authType : AuthType) : Exec unit :=
  tryCatch
    (let projectId := projectId in
     when (negb (ToBoolean projectId))
       (debugLogger_log
          "Cloud Settings: No project ID found in environment variables; skipping.";;
        return_ JNull);;
     projectIdText ← lift (ToString projectId);
     let bucketName := projectIdText +:+ "-gemini-cli-settings" in
     let fileName := "settings.json" in
     let url := "https://storage.googleapis.com/storage/v1/b/" +:+ bucketName
                +:+ "/o/" +:+ fileName +:+ "?alt=media" in
     debugLogger_log ("Cloud Settings: Attempting to fetch from " +:+ url);;
     client ← call_getOauthClient authType config;
     res ← tryCatch
             (call_request client {| url := url; method := "GET" |})
             (fun e =>
                status ← lift (errorStatus e);
                when (strictEqualsNumber status 403 || strictEqualsNumber status 404)
                  (statusText ← lift (ToString status);
                   debugLogger_log
                     ("Cloud Settings: Skipped (Status " +:+ statusText
                      +:+ "). Project/Bucket not found or access denied.");;
                   return_ JNull);;
                throw e);
     status ← lift (Get res "status");
     when (negb (strictEqualsNumber status 200))
       (status' ← lift (Get res "status");
        statusText ← lift (ToString status');
        debugLogger_log
          ("Cloud Settings: Fetch failed with status " +:+ statusText +:+ "; skipping");;
        return_ JNull);;
     data ← lift (Get res "data");
     when (negb (ToBoolean data) || negb (String.eqb (typeof data) "object"))
       (console_error
          "Cloud Settings: Failed to parse settings.json. The file must be a valid JSON object.";;
        return_ JNull);;
     debugLogger_log "Cloud Settings: Successfully loaded.";;
     return_ data)
    (fun e =>
       errorText ← lift (ToString e);
       debugLogger_log ("Cloud Settings: Error loading settings: " +:+ errorText);;
       return_ JNull).

(** The async method: the promise it returns and the events it caused. *)
Definition loadSettings (config : Config) (authType : AuthType)
  : Settled JsVal * list Event :=
  runAsync (loadSettings_body config authType).

End Service.

Arguments DebugLog {Config AuthType} message.
Arguments ConsoleError {Config AuthType} message.
Arguments GetOauthClient {Config AuthType} authType config.
Arguments ClientRequest {Config AuthType} options.
Arguments loadSettings_body {Config AuthType} process_env getOauthClient config authType.
Arguments loadSettings {Config AuthType} process_env getOauthClient config authType.

(** ** The singleton accessor *)

(** Object identity: instances of the class have no fields, so an instance is
    its identity.  The realm holds what outlives a call: the static field
    [CloudSettingsService.instance] ([None] while it is [undefined]) and the
    number of objects constructed so far, from which [new] takes the next
    identity. *)
Definition Handle : Type := nat.

Record Realm : Type := {
  instance : option Handle;
  constructed : nat
}.

(** [new CloudSettingsService()]: the constructor body is empty. *)
Definition new_CloudSettingsService (realm : Realm) : Handle * Realm :=
  (constructed realm,
   {| instance := instance realm; constructed := S (constructed realm) |}).

(** [static getInstance()] *)
Definition getInstance (realm : Realm) : option Handle * Realm :=
  let realm' :=
    match instance realm with
    | None =>
        let '(fresh, realm1) := new_CloudSettingsService realm in
        {| instance := Some fresh; constructed := constructed realm1 |}
    | Some _ => realm
    end in
  (instance realm', realm').

(** The calls a program can make on the service, and what each does to the
    realm: [loadSettings] reads and writes no field of [this] and no static
    field, so it hands the realm on as it found it. *)
Inductive Call (Config AuthType : Type) : Type :=
| Call_getInstance
| Call_loadSettings (this : Handle) (process_env : gmap string string)
    (getOauthClient : AuthType -> Config -> Settled Client)
    (config : Config) (authType : AuthType).
Arguments Call_getInstance {Config AuthType}.
Arguments Call_loadSettings {Config AuthType} this process_env getOauthClient config authType.

Inductive Answer (Config AuthType : Type) : Type :=
| Instance (handle : option Handle)
| Settings (outcome : Settled JsVal * list (Event Config AuthType)).
Arguments Instance {Config AuthType} handle.
Arguments Settings {Config AuthType} outcome.

Definition perform {Config AuthType} (call : Call Config AuthType) (realm : Realm)
  : Answer Config AuthType * Realm :=
  match call with
  | Call_getInstance =>
      let '(handle, realm') := getInstance realm in (Instance handle, realm')
  | Call_loadSettings _ process_env getOauthClient config authType =>
      (Settings (loadSettings process_env getOauthClient config authType), realm)
  end.

(** The realm after a sequence of calls. *)
Definition run {Config AuthType} (calls : list (Call Config AuthType)) (realm : Realm) : Realm :=
  fold_left (fun r call => snd (perform call r)) calls realm.

(** The answers of a sequence of calls, in order. *)
Fixpoint answers {Config AuthType} (calls : list (Call Config AuthType)) (realm : Realm)
  : list (Answer Config AuthType) :=
  match calls with
  | [] => []
  | call :: rest =>
      let '(answer, realm') := perform call realm in
      answer :: answers rest realm'
  end.

(** ** Vocabulary of the statements *)

(** The URL as the interface description writes it. *)
Definition settingsUrl (identifier : string) : string :=
  "https://storage.googleapis.com/storage/v1/b/" +:+ identifier
  +:+ "-gemini-cli-settings/o/settings.json?alt=media".

Definition settingsRequest (identifier : string) : RequestOptions :=
  {| url := settingsUrl identifier; method := "GET" |}.

(** An environment variable that yields no non-empty value. *)
Definition unsetOrEmpty (process_env : gmap string string) (name : string) : Prop :=
  process_env !! name = None \/ process_env !! name = Some "".

(** The messages on the standard error channel, in order. *)
Fixpoint errorLogs {Config AuthType} (trace : list (Event Config AuthType)) : list string :=
  match trace with
  | [] => []
  | ConsoleError message :: rest => message :: errorLogs rest
  | _ :: rest => errorLogs rest
  end.

(** The calls that reach the network: the client factory and the request. *)
Definition isNetworkCall {Config AuthType} (ev : Event Config AuthType) : bool :=
  match ev with
  | GetOauthClient _ _ | ClientRequest _ => true
  | _ => false
  end.

(** The error carries the status code [k]: in its [code] field or, that
    field being absent or falsy, in the [status] of its [response]. *)
Definition carriesStatus (e : JsVal) (k : Z) : Prop :=
  Get e "code" = Value (JNum (Int k)) \/
  exists code response,
    Get e "code" = Value code /\ ToBoolean code = false /\
    Get e "response" = Value response /\
    GetOptional response "status" = Value (JNum (Int k)).

(** The values a template literal can render. *)
Definition stringifiable (v : JsVal) : Prop :=
  exists text, ToString v = Value text.

(** What the service hands back: [null], or a body that passed the shape
    check of line 76. *)
Definition nullOrDocument (v : JsVal) : Prop :=
  v = JNull \/ (ToBoolean v = true /\ typeof v = "object").

(** The outer handler (lines 86-90) run on [e] after the events [trace]. *)
Definition outerCatch {Config AuthType} (e : JsVal) (trace : list (Event Config AuthType))
  : Settled JsVal * list (Event Config AuthType) :=
  match ToString e with
  | Value text =>
      (Fulfilled JNull,
       trace ++ [DebugLog ("Cloud Settings: Error loading settings: " +:+ text)])
  | Exception x => (Rejected x, trace)
  end.

(** The events up to and including the request. *)
Definition requested {Config AuthType} (identifier : string) (config : Config)
    (authType : AuthType) : list (Event Config AuthType) :=
  [DebugLog ("Cloud Settings: Attempting to fetch from " +:+ settingsUrl identifier);
   GetOauthClient authType config;
   ClientRequest (settingsRequest identifier)].

(** The log lines among the events. *)
Definition isLogLine {Config AuthType} (ev : Event Config AuthType) : Prop :=
  match ev with
  | DebugLog _ | ConsoleError _ => True
  | _ => False
  end.

(** The network calls among the events, in order. *)
Definition networkCalls {Config AuthType} (trace : list (Event Config AuthType))
  : list (Event Config AuthType) :=
  List.filter isNetworkCall trace.

(** The message of line 79. *)
Definition malformedMessage : string :=
  "Cloud Settings: Failed to parse settings.json. The file must be a valid JSON object.".

(** The exits of a call that resolves, read off the return statements of the
    method: the condition under which each is taken, the value it hands
    back and the line it logs last. *)
Section Exits.

Context {Config AuthType : Type}.
Variable process_env : gmap string string.
Variable getOauthClient : AuthType -> Config -> Settled Client.
Variable config : Config.
Variable authType : AuthType.

(** The errors that reach the outer handler (line 86): what getOauthClient
    raised, what the request raised unless the inner handler returned, and
    what the runtime raised while the inner handler read the error, while
    the response was read or while its status was rendered. *)
Inductive reachesHandler : JsVal -> Prop :=
| caught_client p e :
    projectId process_env = JStr p -> p <> "" ->
    getOauthClient authType config = Rejected e ->
    reachesHandler e
| caught_request p c e status :
    projectId process_env = JStr p -> p <> "" ->
    getOauthClient authType config = Fulfilled c ->
    request c (settingsRequest p) = Rejected e ->
    errorStatus e = Value status ->
    strictEqualsNumber status 403 || strictEqualsNumber status 404 = false ->
    reachesHandler e
| caught_reading_error p c e x :
    projectId process_env = JStr p -> p <> "" ->
    getOauthClient authType config = Fulfilled c ->
    request c (settingsRequest p) = Rejected e ->
    errorStatus e = Exception x ->
    reachesHandler x
| caught_reading_response p c res x :
    projectId process_env = JStr p -> p <> "" ->
    getOauthClient authType config = Fulfilled c ->
    request c (settingsRequest p) = Fulfilled res ->
    Get res "status" = Exception x ->
    reachesHandler x
| caught_rendering_status p c res status x :
    projectId process_env = JStr p -> p <> "" ->
    getOauthClient authType config = Fulfilled c ->
    request c (settingsRequest p) = Fulfilled res ->
    Get res "status" = Value status ->
    strictEqualsNumber status 200 = false ->
    ToString status = Exception x ->
    reachesHandler x.

Inductive exitTaken : JsVal -> Event Config AuthType -> Prop :=
| exit_no_identifier :
    ToBoolean (projectId process_env) = false ->
    exitTaken JNull
      (DebugLog "Cloud Settings: No project ID found in environment variables; skipping.")
| exit_expected_absence p c e status text :
    projectId process_env = JStr p -> p <> "" ->
    getOauthClient authType config = Fulfilled c ->
    request c (settingsRequest p) = Rejected e ->
    errorStatus e = Value status ->
    strictEqualsNumber status 403 || strictEqualsNumber status 404 = true ->
    ToString status = Value text ->
    exitTaken JNull
      (DebugLog ("Cloud Settings: Skipped (Status " +:+ text
                 +:+ "). Project/Bucket not found or access denied."))
| exit_status p c res status text :
    projectId process_env = JStr p -> p <> "" ->
    getOauthClient authType config = Fulfilled c ->
    request c (settingsRequest p) = Fulfilled res ->
    Get res "status" = Value status ->
    strictEqualsNumber status 200 = false ->
    ToString status = Value text ->
    exitTaken JNull
      (DebugLog ("Cloud Settings: Fetch failed with status " +:+ text +:+ "; skipping"))
| exit_malformed p c res data :
    projectId process_env = JStr p -> p <> "" ->
    getOauthClient authType config = Fulfilled c ->
    request c (settingsRequest p) = Fulfilled res ->
    Get res "status" = Value (JNum (Int 200)) ->
    Get res "data" = Value data ->
    ToBoolean data = false \/ typeof data <> "object" ->
    exitTaken JNull (ConsoleError malformedMessage)
| exit_success p c res data :
    projectId process_env = JStr p -> p <> "" ->
    getOauthClient authType config = Fulfilled c ->
    request c (settingsRequest p) = Fulfilled res ->
    Get res "status" = Value (JNum (Int 200)) ->
    Get res "data" = Value data ->
    ToBoolean data = true -> typeof data = "object" ->
    exitTaken data (DebugLog "Cloud Settings: Successfully loaded.")
| exit_caught e text :
    reachesHandler e ->
    ToString e = Value text ->
    exitTaken JNull (DebugLog ("Cloud Settings: Error loading settings: " +:+ text)).

End Exits.

(** A response without a body, and errors as an HTTP client raises them. *)
Definition bodyless : JsVal := JObj [("status", JNum (Int 200))].

Definition conflictingError : JsVal :=
  JError "GaxiosError" "Conflict"
    [("code", JStr "404"); ("response", JObj [("status", JNum (Int 404))])].

Definition isGetInstance {Config AuthType} (call : Call Config AuthType) : bool :=
  match call with
  | Call_getInstance => true
  | Call_loadSettings _ _ _ _ _ => false
  end.

(** ** Induction on values, and the errors of the runtime *)

Section JsVal_induction.

Variable P : JsVal -> Prop.
Hypothesis P_undefined : P JUndefined.
Hypothesis P_null : P JNull.
Hypothesis P_bool : forall b, P (JBool b).
Hypothesis P_num : forall n, P (JNum n).
Hypothesis P_bigint : forall z, P (JBigInt z).
Hypothesis P_str : forall s, P (JStr s).
Hypothesis P_symbol : forall d, P (JSymbol d).
Hypothesis P_arr : forall elems, Forall P elems -> P (JArr elems).
Hypothesis P_obj : forall props, P (JObj props).
Hypothesis P_error : forall name message props, P (JError name message props).

(** Induction on a value through the elements of its arrays. *)
Fixpoint JsVal_elems_ind (v : JsVal) : P v :=
  match v with
  | JUndefined => P_undefined
  | JNull => P_null
  | JBool b => P_bool b
  | JNum n => P_num n
  | JBigInt z => P_bigint z
  | JStr s => P_str s
  | JSymbol d => P_symbol d
  | JArr elems =>
      P_arr elems
        ((fix all (l : list JsVal) : Forall P l :=
            match l with
            | [] => List.Forall_nil P
            | x :: rest => List.Forall_cons P x rest (JsVal_elems_ind x) (all rest)
            end) elems)
  | JObj props => P_obj props
  | JError name message props => P_error name message props
  end.

End JsVal_induction.

(** The errors the runtime itself raises are TypeErrors without further
    properties. *)
Definition runtimeError (x : JsVal) : Prop :=
  exists message, x = TypeError message.

(** ** Sample inputs *)

Definition acme_env : gmap string string :=
  {[ "GOOGLE_CLOUD_PROJECT" := "acme" ]}.

Definition fallback_env : gmap string string :=
  <[ "GOOGLE_CLOUD_PROJECT" := "" ]> {[ "GOOGLE_CLOUD_PROJECT_ID" := "acme" ]}.

Definition empty_env : gmap string string :=
  {[ "GOOGLE_CLOUD_PROJECT" := "" ]}.

(** A response object, a client that answers with it, one that raises, and
    factories that hand out a client or raise. *)
Definition response (status : Z) (data : JsVal) : JsVal :=
  JObj [("status", JNum (Int status)); ("data", data)].

Definition answering (res : JsVal) : Client :=
  {| request := fun _ => Fulfilled res |}.

Definition raising (e : JsVal) : Client :=
  {| request := fun _ => Rejected e |}.

Definition handingOut (client : Client) : unit -> unit -> Settled Client :=
  fun _ _ => Fulfilled client.

Definition unavailable (e : JsVal) : unit -> unit -> Settled Client :=
  fun _ _ => Rejected e.

(** ** Symbolic execution of [loadSettings] *)

Example ToString_array :
  ToString (JArr [JNum (Int 1); JNull; JArr [JStr "a"; JBool true]; JObj []])
  = Value "1,,a,true,[object Object]".
Proof. reflexivity. Qed.

Example ToString_shadowed :
  ToString (JObj [("toString", JNum (Int 1))])
  = Exception (TypeError "Cannot convert object to primitive value").
Proof. reflexivity. Qed.

(** A client that answers nothing: reading [res.status] raises inside the
    outer try, and the handler turns that into [null]. *)
Example loadSettings_no_response :
  loadSettings acme_env (handingOut (answering JUndefined)) () ()
  = (Fulfilled JNull,
     requested "acme" () ()
     ++ [DebugLog "Cloud Settings: Error loading settings: TypeError: Cannot read properties of undefined (reading 'status')"]).
Proof. reflexivity. Qed.

(** [throw null] from the request: the inner handler itself raises on
    [e.code], and the outer handler logs that error. *)
Example loadSettings_request_raises_null :
  loadSettings acme_env (handingOut (raising JNull)) () ()
  = (Fulfilled JNull,
     requested "acme" () ()
     ++ [DebugLog "Cloud Settings: Error loading settings: TypeError: Cannot read properties of null (reading 'code')"]).
Proof. reflexivity. Qed.

(** A server error: the debug line names the status. *)
Example loadSettings_status_500 :
  loadSettings acme_env (handingOut (answering (response 500 (JObj [])))) () ()
  = (Fulfilled JNull,
     requested "acme" () ()
     ++ [DebugLog "Cloud Settings: Fetch failed with status 500; skipping"]).
Proof. reflexivity. Qed.

(** A string body: the one message on the standard error channel. *)
Example loadSettings_string_body :
  loadSettings acme_env (handingOut (answering (response 200 (JStr "not-an-object")))) () ()
  = (Fulfilled JNull,
     requested "acme" () ()
     ++ [ConsoleError "Cloud Settings: Failed to parse settings.json. The file must be a valid JSON object."]).
Proof. reflexivity. Qed.

Section Execution.

Context {Config AuthType : Type}.
Implicit Types (process_env : gmap string string)
  (getOauthClient : AuthType -> Config -> Settled Client)
  (config : Config) (authType : AuthType)
  (trace : list (Event Config AuthType)).

Lemma append_assoc (a b c : string) : (a +:+ b) +:+ c = a +:+ b +:+ c.
Proof.
  induction a as [|ch a IH]; [reflexivity|].
  change (String ch ((a +:+ b) +:+ c) = String ch (a +:+ b +:+ c)).
  now rewrite IH.
Qed.

(** The URL the code assembles from bucket and file name is the one of the
    interface description. *)
Lemma url_assembled (identifier : string) :
  "https://storage.googleapis.com/storage/v1/b/" +:+ (identifier +:+ "-gemini-cli-settings")
    +:+ "/o/" +:+ "settings.json" +:+ "?alt=media"
  = settingsUrl identifier.
Proof. unfold settingsUrl. now rewrite append_assoc. Qed.

Lemma env_unsetOrEmpty process_env name :
  unsetOrEmpty process_env name -> ToBoolean (env process_env name) = false.
Proof. unfold env. intros [-> | ->]; reflexivity. Qed.

Lemma ToBoolean_JStr (s : string) : ToBoolean (JStr s) = true <-> s <> "".
Proof.
  cbn. destruct (String.eqb_spec s ""); cbn; split; congruence.
Qed.

Lemma env_truthy process_env name :
  ToBoolean (env process_env name) = true ->
  exists s, process_env !! name = Some s /\ s <> "".
Proof.
  unfold env. destruct (process_env !! name) as [s|]; [|discriminate].
  intros H. exists s. split; [reflexivity|]. now apply ToBoolean_JStr.
Qed.

(** A truthy identifier is a non-empty string. *)
Lemma projectId_truthy process_env :
  ToBoolean (projectId process_env) = true ->
  exists p, projectId process_env = JStr p /\ p <> "".
Proof.
  unfold projectId, logicalOr.
  destruct (ToBoolean (env process_env "GOOGLE_CLOUD_PROJECT")) eqn:H1; intros H.
  - destruct (env_truthy _ _ H1) as (s & Hs & Hne).
    exists s. unfold env. now rewrite Hs.
  - destruct (env_truthy _ _ H) as (s & Hs & Hne).
    exists s. unfold env. now rewrite Hs.
Qed.

Ltac exec :=
  unfold loadSettings, runAsync, loadSettings_body, tryCatch, when,
    call_getOauthClient, call_request, debugLogger_log, console_error, await,
    emit, lift, return_, throw, mbind, mret, Exec_bind, Exec_ret.

(** Exit 1 (lines 39-44): no identifier. *)
Lemma loadSettings_skips process_env getOauthClient config authType :
  ToBoolean (projectId process_env) = false ->
  loadSettings process_env getOauthClient config authType
  = (Fulfilled JNull,
     [DebugLog "Cloud Settings: No project ID found in environment variables; skipping."]).
Proof. intros H. exec. rewrite H. reflexivity. Qed.

(** Line 52 raises: the outer handler takes over. *)
Lemma loadSettings_client_fails process_env getOauthClient config authType p e :
  projectId process_env = JStr p -> p <> "" ->
  getOauthClient authType config = Rejected e ->
  loadSettings process_env getOauthClient config authType
  = outerCatch e
      [DebugLog ("Cloud Settings: Attempting to fetch from " +:+ settingsUrl p);
       GetOauthClient authType config].
Proof.
  intros Hp Hne Hf. apply ToBoolean_JStr in Hne. exec.
  rewrite Hp, Hne. cbn. rewrite url_assembled, Hf. cbn. unfold outerCatch.
  destruct (ToString e); reflexivity.
Qed.

(** Line 55 raises: the inner handler (lines 57-66), then the outer one. *)
Lemma loadSettings_request_fails process_env getOauthClient config authType p c e :
  projectId process_env = JStr p -> p <> "" ->
  getOauthClient authType config = Fulfilled c ->
  request c (settingsRequest p) = Rejected e ->
  loadSettings process_env getOauthClient config authType
  = match errorStatus e with
    | Value status =>
        if strictEqualsNumber status 403 || strictEqualsNumber status 404
        then match ToString status with
             | Value text =>
                 (Fulfilled JNull,
                  requested p config authType
                  ++ [DebugLog ("Cloud Settings: Skipped (Status " +:+ text
                                +:+ "). Project/Bucket not found or access denied.")])
             | Exception x => outerCatch x (requested p config authType)
             end
        else outerCatch e (requested p config authType)
    | Exception x => outerCatch x (requested p config authType)
    end.
Proof.
  intros Hp Hne Hf Hr. apply ToBoolean_JStr in Hne. exec.
  rewrite Hp, Hne. cbn. rewrite url_assembled, Hf. cbn.
  fold (settingsRequest p). rewrite Hr. unfold outerCatch, requested.
  destruct (errorStatus e) as [status|x]; cbn.
  - destruct (strictEqualsNumber status 403 || strictEqualsNumber status 404).
    + destruct (ToString status) as [text|x]; cbn; [reflexivity|].
      destruct (ToString x); reflexivity.
    + cbn. destruct (ToString e); reflexivity.
  - destruct (ToString x); reflexivity.
Qed.

(** Line 55 answers: status and shape checks (lines 68-85). *)
Lemma loadSettings_response process_env getOauthClient config authType p c res :
  projectId process_env = JStr p -> p <> "" ->
  getOauthClient authType config = Fulfilled c ->
  request c (settingsRequest p) = Fulfilled res ->
  loadSettings process_env getOauthClient config authType
  = match Get res "status" with
    | Value status =>
        if negb (strictEqualsNumber status 200)
        then match ToString status with
             | Value text =>
                 (Fulfilled JNull,
                  requested p config authType
                  ++ [DebugLog ("Cloud Settings: Fetch failed with status " +:+ text
                                +:+ "; skipping")])
             | Exception x => outerCatch x (requested p config authType)
             end
        else match Get res "data" with
             | Value data =>
                 if negb (ToBoolean data) || negb (String.eqb (typeof data) "object")
                 then (Fulfilled JNull,
                       requested p config authType
                       ++ [ConsoleError "Cloud Settings: Failed to parse settings.json. The file must be a valid JSON object."])
                 else (Fulfilled data,
                       requested p config authType
                       ++ [DebugLog "Cloud Settings: Successfully loaded."])
             | Exception x => outerCatch x (requested p config authType)
             end
    | Exception x => outerCatch x (requested p config authType)
    end.
Proof.
  intros Hp Hne Hf Hr. apply ToBoolean_JStr in Hne. exec.
  rewrite Hp, Hne. cbn. rewrite url_assembled, Hf. cbn.
  fold (settingsRequest p). rewrite Hr. unfold outerCatch, requested.
  destruct (Get res "status") as [status|x]; cbn.
  - destruct (strictEqualsNumber status 200); cbn.
    + destruct (Get res "data") as [data|x]; cbn.
      * destruct (negb (ToBoolean data) || negb (String.eqb (typeof data) "object"));
          reflexivity.
      * destruct (ToString x); reflexivity.
    + destruct (ToString status) as [text|x]; cbn; [reflexivity|].
      destruct (ToString x); reflexivity.
  - destruct (ToString x); reflexivity.
Qed.

End Execution.

Lemma runtimeError_stringifiable (x : JsVal) : runtimeError x -> stringifiable x.
Proof. intros [m ->]. eexists. reflexivity. Qed.

Lemma Get_raises (v : JsVal) (key : string) (x : JsVal) :
  Get v key = Exception x -> runtimeError x.
Proof.
  destruct v; cbn; try discriminate; try (intros [= <-]; eexists; reflexivity).
  repeat case_match; discriminate.
Qed.

Lemma GetOptional_total (v : JsVal) (key : string) :
  exists r, GetOptional v key = Value r.
Proof.
  destruct v; cbn; try (eexists; reflexivity).
  repeat case_match; eexists; reflexivity.
Qed.

Lemma errorStatus_raises (e x : JsVal) :
  errorStatus e = Exception x -> runtimeError x.
Proof.
  unfold errorStatus.
  destruct (Get e "code") as [code|y] eqn:Hc; [|intros [= <-]; eauto using Get_raises].
  destruct (ToBoolean code); [discriminate|].
  destruct (Get e "response") as [response|y] eqn:Hr;
    [|intros [= <-]; eauto using Get_raises].
  destruct (GetOptional_total response "status") as [r ->]. discriminate.
Qed.

Lemma join_raises (toString : JsVal -> Result string) (elems : list JsVal) :
  Forall (fun v => forall x, toString v = Exception x -> runtimeError x) elems ->
  forall first x, join toString first elems = Exception x -> runtimeError x.
Proof.
  induction 1 as [|v rest Hv _ IH]; intros first x; cbn; [discriminate|].
  destruct (match v with JUndefined | JNull => Value "" | _ => toString v end)
    as [s|y] eqn:Hs.
  - destruct (join toString false rest) as [t|y] eqn:Ht; [discriminate|].
    intros [= <-]. eauto.
  - intros [= <-]. destruct v; try discriminate; eauto.
Qed.

Lemma ToString_raises (v x : JsVal) :
  ToString v = Exception x -> runtimeError x.
Proof.
  revert x. induction v as [| | b | n | z | s | d | elems IH | props | name message props]
    using JsVal_elems_ind; intros x; cbn; try discriminate.
  - destruct b; discriminate.
  - intros [= <-]. eexists. reflexivity.
  - now apply join_raises.
  - case_match; [|discriminate]. intros [= <-]. eexists. reflexivity.
  - case_match; [|discriminate]. intros [= <-]. eexists. reflexivity.
Qed.

(** Errors and plain objects that do not shadow [toString] can be
    rendered, as can every primitive but a symbol. *)
Lemma stringifiable_error (name message : string) (props : list (string * JsVal)) :
  hasOwn props "toString" = false -> stringifiable (JError name message props).
Proof. intros H. exists (ErrorToString name message). cbn. now rewrite H. Qed.

Lemma stringifiable_object (props : list (string * JsVal)) :
  hasOwn props "toString" = false -> stringifiable (JObj props).
Proof. intros H. exists "[object Object]". cbn. now rewrite H. Qed.

Lemma stringifiable_primitive (v : JsVal) :
  typeof v <> "object" -> typeof v <> "symbol" -> stringifiable v.
Proof.
  destruct v as [| | [] | | | | | | |]; cbn; intros Hobject Hsymbol;
    try congruence; eexists; reflexivity.
Qed.

Section Claims.

Context {Config AuthType : Type}.
Implicit Types (process_env : gmap string string)
  (getOauthClient : AuthType -> Config -> Settled Client)
  (config : Config) (authType : AuthType)
  (trace : list (Event Config AuthType)).

Lemma outerCatch_renders (e : JsVal) (text : string) trace :
  ToString e = Value text ->
  outerCatch e trace
  = (Fulfilled JNull,
     trace ++ [DebugLog ("Cloud Settings: Error loading settings: " +:+ text)]).
Proof. unfold outerCatch. now intros ->. Qed.

Lemma outerCatch_stringifiable (e : JsVal) trace :
  stringifiable e -> fst (outerCatch e trace) = Fulfilled JNull.
Proof. intros [text H]. now rewrite (outerCatch_renders _ _ _ H). Qed.

Lemma errorLogs_app trace trace' :
  errorLogs (trace ++ trace') = errorLogs trace ++ errorLogs trace'.
Proof.
  induction trace as [|[] rest IH]; cbn; [reflexivity| |now f_equal| |]; exact IH.
Qed.

Lemma outerCatch_errorLogs (e : JsVal) trace :
  errorLogs (snd (outerCatch e trace)) = errorLogs trace.
Proof.
  unfold outerCatch. destruct (ToString e); cbn; [|reflexivity].
  rewrite errorLogs_app. cbn. apply app_nil_r.
Qed.

Lemma outerCatch_requests (e : JsVal) trace (options : RequestOptions) :
  In (ClientRequest options) (snd (outerCatch e trace)) <->
  In (ClientRequest options) trace.
Proof.
  unfold outerCatch. destruct (ToString e); cbn; [|reflexivity].
  rewrite in_app_iff. cbn. intuition discriminate.
Qed.

Lemma outerCatch_trace (e : JsVal) trace :
  exists tail, snd (outerCatch e trace) = trace ++ tail /\ Forall isLogLine tail.
Proof.
  unfold outerCatch. destruct (ToString e); cbn.
  - eexists. split; [reflexivity|]. repeat constructor.
  - exists []. split; [now rewrite app_nil_r|constructor].
Qed.

(** Once the client is there, the events are those up to the request,
    followed by log lines only. *)
Lemma loadSettings_trace process_env getOauthClient config authType p c :
  projectId process_env = JStr p -> p <> "" ->
  getOauthClient authType config = Fulfilled c ->
  exists tail,
    snd (loadSettings process_env getOauthClient config authType)
    = requested p config authType ++ tail
    /\ Forall isLogLine tail.
Proof.
  intros Hp Hne Hf.
  destruct (request c (settingsRequest p)) as [res|e] eqn:Hr.
  - rewrite (loadSettings_response _ _ _ _ _ _ _ Hp Hne Hf Hr).
    repeat case_match; try apply outerCatch_trace;
      (eexists; split; [reflexivity|repeat constructor]).
  - rewrite (loadSettings_request_fails _ _ _ _ _ _ _ Hp Hne Hf Hr).
    repeat case_match; try apply outerCatch_trace;
      (eexists; split; [reflexivity|repeat constructor]).
Qed.

(** ** The claims *)

(** C9. Identifier resolution takes the first non-empty value: a non-empty
    GOOGLE_CLOUD_PROJECT is the identifier whatever GOOGLE_CLOUD_PROJECT_ID
    holds, and when GOOGLE_CLOUD_PROJECT is unset or empty a non-empty
    GOOGLE_CLOUD_PROJECT_ID is the identifier. *)
Theorem projectId_first_non_empty process_env (identifier : string) :
  identifier <> "" ->
  process_env !! "GOOGLE_CLOUD_PROJECT" = Some identifier \/
  (unsetOrEmpty process_env "GOOGLE_CLOUD_PROJECT" /\
   process_env !! "GOOGLE_CLOUD_PROJECT_ID" = Some identifier) ->
  projectId process_env = JStr identifier.
Proof.
  intros Hne [H1 | [H1 H2]]; unfold projectId, logicalOr.
  - apply ToBoolean_JStr in Hne. unfold env at 1 2. rewrite H1, Hne. reflexivity.
  - rewrite (env_unsetOrEmpty _ _ H1). unfold env. now rewrite H2.
Qed.

(** C5. When neither GOOGLE_CLOUD_PROJECT nor GOOGLE_CLOUD_PROJECT_ID yields
    a non-empty value, loadSettings resolves to null and its only event is
    the skip line of the debug log: neither getOauthClient nor
    client.request is called. *)
Theorem loadSettings_without_identifier process_env getOauthClient config authType :
  unsetOrEmpty process_env "GOOGLE_CLOUD_PROJECT" ->
  unsetOrEmpty process_env "GOOGLE_CLOUD_PROJECT_ID" ->
  loadSettings process_env getOauthClient config authType
  = (Fulfilled JNull,
     [DebugLog "Cloud Settings: No project ID found in environment variables; skipping."])
  /\ Forall (fun ev => isNetworkCall ev = false)
       (snd (loadSettings process_env getOauthClient config authType)).
Proof.
  intros H1 H2.
  assert (H : ToBoolean (projectId process_env) = false).
  { unfold projectId, logicalOr. rewrite (env_unsetOrEmpty _ _ H1).
    now apply env_unsetOrEmpty. }
  rewrite (loadSettings_skips _ getOauthClient config authType H).
  split; [reflexivity|]. repeat constructor.
Qed.

(** C4. For every identifier resolved from the environment, every request
    loadSettings hands to the client is a GET of
    https://storage.googleapis.com/storage/v1/b/{identifier}-gemini-cli-settings/o/settings.json?alt=media,
    and that request is made as soon as getOauthClient yields a client. *)
Theorem loadSettings_request_url process_env getOauthClient config authType identifier :
  projectId process_env = JStr identifier -> identifier <> "" ->
  (forall options,
     In (ClientRequest options)
        (snd (loadSettings process_env getOauthClient config authType)) ->
     options
     = {| url := "https://storage.googleapis.com/storage/v1/b/" +:+ identifier
                 +:+ "-gemini-cli-settings/o/settings.json?alt=media";
          method := "GET" |})
  /\ (forall client,
        getOauthClient authType config = Fulfilled client ->
        In (ClientRequest
              {| url := "https://storage.googleapis.com/storage/v1/b/" +:+ identifier
                        +:+ "-gemini-cli-settings/o/settings.json?alt=media";
                 method := "GET" |})
           (snd (loadSettings process_env getOauthClient config authType))).
Proof.
  intros Hp Hne. fold (settingsUrl identifier). fold (settingsRequest identifier).
  destruct (getOauthClient authType config) as [c|e] eqn:Hf.
  - destruct (loadSettings_trace _ _ _ _ _ _ Hp Hne Hf) as (tail & -> & Htail).
    split.
    + intros options [H | H]%in_app_iff.
      * cbn in H. destruct H as [H | [H | [H | []]]]; congruence.
      * rewrite Forall_forall in Htail. apply list_elem_of_In, Htail in H. destruct H.
    + intros _ _. apply in_app_iff. left. cbn. auto.
  - rewrite (loadSettings_client_fails _ _ _ _ _ _ Hp Hne Hf). split; [|discriminate].
    intros options H%outerCatch_requests. cbn in H.
    destruct H as [H | [H | []]]; discriminate.
Qed.

(** C6. If the client answers with status 200 and a body that is a JSON
    object, loadSettings resolves to that very body, and logs the success
    on the debug channel. *)
Theorem loadSettings_passes_object_through
    process_env getOauthClient config authType p c res props :
  projectId process_env = JStr p -> p <> "" ->
  getOauthClient authType config = Fulfilled c ->
  request c (settingsRequest p) = Fulfilled res ->
  Get res "status" = Value (JNum (Int 200)) ->
  Get res "data" = Value (JObj props) ->
  loadSettings process_env getOauthClient config authType
  = (Fulfilled (JObj props),
     requested p config authType ++ [DebugLog "Cloud Settings: Successfully loaded."]).
Proof.
  intros Hp Hne Hf Hr Hs Hd.
  rewrite (loadSettings_response _ _ _ _ _ _ _ Hp Hne Hf Hr), Hs, Hd. reflexivity.
Qed.

(** C7. If the client answers with a status other than the number 200,
    loadSettings resolves to null and writes nothing to the standard error
    channel; when the status can be rendered, the one line it adds is the
    "Fetch failed" line of the debug log. *)
Theorem loadSettings_non_200 process_env getOauthClient config authType p c res status :
  projectId process_env = JStr p -> p <> "" ->
  getOauthClient authType config = Fulfilled c ->
  request c (settingsRequest p) = Fulfilled res ->
  Get res "status" = Value status ->
  strictEqualsNumber status 200 = false ->
  fst (loadSettings process_env getOauthClient config authType) = Fulfilled JNull
  /\ errorLogs (snd (loadSettings process_env getOauthClient config authType)) = []
  /\ (forall text,
        ToString status = Value text ->
        snd (loadSettings process_env getOauthClient config authType)
        = requested p config authType
          ++ [DebugLog ("Cloud Settings: Fetch failed with status " +:+ text
                        +:+ "; skipping")]).
Proof.
  intros Hp Hne Hf Hr Hs H200.
  rewrite (loadSettings_response _ _ _ _ _ _ _ Hp Hne Hf Hr), Hs, H200. cbn [negb].
  destruct (ToString status) as [text|x] eqn:Ht.
  - repeat split. now intros ? [= <-].
  - split; [|split; [|discriminate]].
    + apply outerCatch_stringifiable, runtimeError_stringifiable.
      eauto using ToString_raises.
    + now rewrite outerCatch_errorLogs.
Qed.

Lemma carriesStatus_errorStatus (e : JsVal) (k : Z) :
  k <> 0 -> carriesStatus e k -> errorStatus e = Value (JNum (Int k)).
Proof.
  intros Hk [H | (code & response & Hc & Hfalsy & Hr & Hs)]; unfold errorStatus.
  - rewrite H. cbn. now apply Z.eqb_neq in Hk as ->.
  - now rewrite Hc, Hfalsy, Hr.
Qed.

(** C3. If client.request raises an error that carries the status 403 or
    404, in its code field or else in the status of its response,
    loadSettings resolves to null: the inner handler logs the skip on the
    debug channel and returns. *)
Theorem loadSettings_forbidden_or_not_found
    process_env getOauthClient config authType p c e k :
  projectId process_env = JStr p -> p <> "" ->
  getOauthClient authType config = Fulfilled c ->
  request c (settingsRequest p) = Rejected e ->
  k = 403 \/ k = 404 ->
  carriesStatus e k ->
  loadSettings process_env getOauthClient config authType
  = (Fulfilled JNull,
     requested p config authType
     ++ [DebugLog ("Cloud Settings: Skipped (Status " +:+ pretty k
                   +:+ "). Project/Bucket not found or access denied.")]).
Proof.
  intros Hp Hne Hf Hr Hk He.
  rewrite (loadSettings_request_fails _ _ _ _ _ _ _ Hp Hne Hf Hr).
  rewrite (carriesStatus_errorStatus e k) by (trivial; lia).
  destruct Hk as [-> | ->]; reflexivity.
Qed.

(** Whatever else client.request raises, loadSettings resolves to null as
    long as the error can be rendered for the log. *)
Lemma loadSettings_request_error process_env getOauthClient config authType p c e :
  projectId process_env = JStr p -> p <> "" ->
  getOauthClient authType config = Fulfilled c ->
  request c (settingsRequest p) = Rejected e ->
  stringifiable e ->
  fst (loadSettings process_env getOauthClient config authType) = Fulfilled JNull.
Proof.
  intros Hp Hne Hf Hr He.
  rewrite (loadSettings_request_fails _ _ _ _ _ _ _ Hp Hne Hf Hr).
  destruct (errorStatus e) as [status|x] eqn:Hs.
  - destruct (strictEqualsNumber status 403 || strictEqualsNumber status 404);
      [|now apply outerCatch_stringifiable].
    destruct (ToString status) as [text|x] eqn:Ht; [reflexivity|].
    eauto using outerCatch_stringifiable, runtimeError_stringifiable, ToString_raises.
  - eauto using outerCatch_stringifiable, runtimeError_stringifiable, errorStatus_raises.
Qed.

(** The part of C8 the code does: if getOauthClient raises an error value
    that can be converted to a string, loadSettings resolves to null; with
    an identifier in the environment it does so through the outer handler,
    whose line is the last of the debug log. *)
Theorem loadSettings_client_construction_fails
    process_env getOauthClient config authType e text :
  getOauthClient authType config = Rejected e ->
  ToString e = Value text ->
  fst (loadSettings process_env getOauthClient config authType) = Fulfilled JNull
  /\ (forall p,
        projectId process_env = JStr p -> p <> "" ->
        snd (loadSettings process_env getOauthClient config authType)
        = [DebugLog ("Cloud Settings: Attempting to fetch from " +:+ settingsUrl p);
           GetOauthClient authType config;
           DebugLog ("Cloud Settings: Error loading settings: " +:+ text)]).
Proof.
  intros Hf Ht. split.
  - destruct (ToBoolean (projectId process_env)) eqn:Hb.
    + destruct (projectId_truthy _ Hb) as (p & Hp & Hne).
      rewrite (loadSettings_client_fails _ _ _ _ _ _ Hp Hne Hf).
      now rewrite (outerCatch_renders _ _ _ Ht).
    + now rewrite loadSettings_skips.
  - intros p Hp Hne. rewrite (loadSettings_client_fails _ _ _ _ _ _ Hp Hne Hf).
    now rewrite (outerCatch_renders _ _ _ Ht).
Qed.

(** C2, on the code. A body that is an array passes the shape check of line
    76: with status 200 loadSettings resolves to the array itself, logs the
    success on the debug channel and writes nothing to the standard error
    channel. *)
Theorem loadSettings_array_body_accepted
    process_env getOauthClient config authType p c res elems :
  projectId process_env = JStr p -> p <> "" ->
  getOauthClient authType config = Fulfilled c ->
  request c (settingsRequest p) = Fulfilled res ->
  Get res "status" = Value (JNum (Int 200)) ->
  Get res "data" = Value (JArr elems) ->
  loadSettings process_env getOauthClient config authType
  = (Fulfilled (JArr elems),
     requested p config authType ++ [DebugLog "Cloud Settings: Successfully loaded."])
  /\ errorLogs (snd (loadSettings process_env getOauthClient config authType)) = [].
Proof.
  intros Hp Hne Hf Hr Hs Hd.
  rewrite (loadSettings_response _ _ _ _ _ _ _ Hp Hne Hf Hr), Hs, Hd.
  split; reflexivity.
Qed.

(** The part of C2 the code does: with status 200, a body that is null,
    undefined or of a type other than object makes loadSettings resolve to
    null with exactly one message on the standard error channel. *)
Lemma loadSettings_non_object_body_rejected
    process_env getOauthClient config authType p c res data :
  projectId process_env = JStr p -> p <> "" ->
  getOauthClient authType config = Fulfilled c ->
  request c (settingsRequest p) = Fulfilled res ->
  Get res "status" = Value (JNum (Int 200)) ->
  Get res "data" = Value data ->
  data = JNull \/ typeof data <> "object" ->
  fst (loadSettings process_env getOauthClient config authType) = Fulfilled JNull
  /\ errorLogs (snd (loadSettings process_env getOauthClient config authType))
     = ["Cloud Settings: Failed to parse settings.json. The file must be a valid JSON object."].
Proof.
  intros Hp Hne Hf Hr Hs Hd Hshape.
  rewrite (loadSettings_response _ _ _ _ _ _ _ Hp Hne Hf Hr), Hs, Hd. cbn [negb strictEqualsNumber Z.eqb Pos.eqb].
  assert (negb (ToBoolean data) || negb (String.eqb (typeof data) "object") = true) as ->.
  { destruct Hshape as [-> | H]; [reflexivity|].
    apply orb_true_iff. right. apply negb_true_iff. now apply String.eqb_neq. }
  split; reflexivity.
Qed.

(** The part of C1 the code does: whatever the environment, the
    configuration and the authentication mode, and however getOauthClient
    and client.request behave, loadSettings does not raise as long as the
    errors that reach the outer handler can be converted to a string, that
    is, the error getOauthClient raises and the error the request raises
    unless its status is 403 or 404. It then resolves to null or to a body
    that passed the shape check. *)
Lemma loadSettings_never_raises process_env getOauthClient config authType :
  (forall e, getOauthClient authType config = Rejected e -> stringifiable e) ->
  (forall p c e status,
     projectId process_env = JStr p ->
     getOauthClient authType config = Fulfilled c ->
     request c (settingsRequest p) = Rejected e ->
     errorStatus e = Value status ->
     strictEqualsNumber status 403 || strictEqualsNumber status 404 = false ->
     stringifiable e) ->
  exists v,
    fst (loadSettings process_env getOauthClient config authType) = Fulfilled v
    /\ nullOrDocument v.
Proof.
  intros Hfactory Hclient.
  assert (Hcatch : forall x trace,
             stringifiable x ->
             exists v, fst (outerCatch x trace) = Fulfilled v /\ nullOrDocument v).
  { intros x trace Hx. exists JNull. split; [|now left].
    now apply outerCatch_stringifiable. }
  assert (Hruntime : forall x trace,
             runtimeError x ->
             exists v, fst (outerCatch x trace) = Fulfilled v /\ nullOrDocument v).
  { intros x trace Hx. now apply Hcatch, runtimeError_stringifiable. }
  assert (Hnull : forall trace,
             exists v, fst (Fulfilled JNull, trace) = Fulfilled v /\ nullOrDocument v).
  { intros trace. exists JNull. split; [reflexivity|now left]. }
  destruct (ToBoolean (projectId process_env)) eqn:Hb;
    [|rewrite loadSettings_skips by trivial; apply Hnull].
  destruct (projectId_truthy _ Hb) as (p & Hp & Hne).
  destruct (getOauthClient authType config) as [c|e] eqn:Hf;
    [|rewrite (loadSettings_client_fails _ _ _ _ _ _ Hp Hne Hf); now apply Hcatch, Hfactory].
  destruct (request c (settingsRequest p)) as [res|e] eqn:Hr.
  - rewrite (loadSettings_response _ _ _ _ _ _ _ Hp Hne Hf Hr).
    destruct (Get res "status") as [status|x] eqn:Hs;
      [|eauto using Get_raises].
    destruct (negb (strictEqualsNumber status 200)).
    { destruct (ToString status) as [text|x] eqn:Ht; [apply Hnull|].
      eauto using ToString_raises. }
    destruct (Get res "data") as [data|x] eqn:Hd; [|eauto using Get_raises].
    destruct (negb (ToBoolean data) || negb (String.eqb (typeof data) "object")) eqn:Hshape;
      [apply Hnull|].
    apply orb_false_iff in Hshape as [Htruthy Hobject].
    apply negb_false_iff in Htruthy, Hobject. apply String.eqb_eq in Hobject.
    exists data. split; [reflexivity|now right].
  - rewrite (loadSettings_request_fails _ _ _ _ _ _ _ Hp Hne Hf Hr).
    destruct (errorStatus e) as [status|x] eqn:Hs;
      [|eauto using errorStatus_raises].
    destruct (strictEqualsNumber status 403 || strictEqualsNumber status 404) eqn:Hk;
      [|eapply Hcatch, Hclient; eauto].
    destruct (ToString status) as [text|x] eqn:Ht; [apply Hnull|].
    eauto using ToString_raises.
Qed.

End Claims.

(** From a fresh realm: the first call constructs object 0, the second
    returns it. *)
Example getInstance_twice :
  getInstance {| instance := None; constructed := 0 |}
  = (Some 0%nat, {| instance := Some 0%nat; constructed := 1 |})
  /\ getInstance {| instance := Some 0%nat; constructed := 1 |}
     = (Some 0%nat, {| instance := Some 0%nat; constructed := 1 |}).
Proof. split; reflexivity. Qed.

(** Once the instance is there, [getInstance] returns it and changes
    nothing. *)
Lemma getInstance_present (realm : Realm) (handle : Handle) :
  instance realm = Some handle -> getInstance realm = (Some handle, realm).
Proof. intros H. unfold getInstance. rewrite H. cbn. now rewrite H. Qed.

Lemma getInstance_sets (realm : Realm) :
  exists handle, instance (snd (getInstance realm)) = Some handle.
Proof. unfold getInstance. destruct (instance realm) eqn:H; cbn; eauto. Qed.

Lemma run_present {Config AuthType} (calls : list (Call Config AuthType))
    (realm : Realm) (handle : Handle) :
  instance realm = Some handle ->
  run calls realm = realm
  /\ (forall r, In (Instance r) (answers calls realm) -> r = Some handle)
  /\ (forall outcome,
        In (Settings outcome) (answers calls realm) ->
        exists this process_env getOauthClient config authType,
          In (Call_loadSettings this process_env getOauthClient config authType) calls
          /\ outcome = loadSettings process_env getOauthClient config authType).
Proof.
  intros H. unfold run.
  induction calls as [|call calls (IHrun & IHinst & IHsettings)];
    [cbn; intuition|].
  destruct call as [|this process_env getOauthClient config authType];
    cbn [fold_left answers perform]; [rewrite (getInstance_present _ _ H)|];
    cbn [fst snd]; (split; [exact IHrun|split]).
  - intros r [[= <-] | Hin]; [reflexivity|now apply IHinst].
  - intros outcome [[=] | Hin].
    destruct (IHsettings _ Hin) as (t & e & g & c & a & Hin' & ->).
    exists t, e, g, c, a. split; [now right|reflexivity].
  - intros r [[=] | Hin]. now apply IHinst.
  - intros outcome [[= <-] | Hin].
    + exists this, process_env, getOauthClient, config, authType.
      split; [now left|reflexivity].
    + destruct (IHsettings _ Hin) as (t & e & g & c & a & Hin' & ->).
      exists t, e, g, c, a. split; [now right|reflexivity].
Qed.

(** C10. getInstance is idempotent: it returns a handle, constructing the
    instance only if there is none yet; whatever calls of the service
    follow, the realm stays as that first call left it and every getInstance
    among them returns the same handle; and every loadSettings among them
    answers from its own arguments alone. *)
Theorem getInstance_idempotent (realm : Realm) :
  exists handle,
    fst (getInstance realm) = Some handle
    /\ constructed (snd (getInstance realm))
       = (constructed realm + match instance realm with Some _ => 0 | None => 1 end)%nat
    /\ getInstance (snd (getInstance realm)) = (Some handle, snd (getInstance realm))
    /\ (forall Config AuthType (calls : list (Call Config AuthType)),
          run calls (snd (getInstance realm)) = snd (getInstance realm)
          /\ (forall r,
                In (Instance r) (answers calls (snd (getInstance realm))) ->
                r = Some handle)
          /\ (forall outcome,
                In (Settings outcome) (answers calls (snd (getInstance realm))) ->
                exists this process_env getOauthClient config authType,
                  In (Call_loadSettings this process_env getOauthClient config authType)
                     calls
                  /\ outcome = loadSettings process_env getOauthClient config authType)).
Proof.
  destruct (getInstance_sets realm) as [handle Hh]. exists handle.
  split; [exact Hh|]. split.
  { unfold getInstance. destruct (instance realm); cbn; lia. }
  split; [now apply getInstance_present|].
  intros Config AuthType calls. now apply run_present.
Qed.

(** ** The claims at sample inputs *)

Lemma projectId_first_non_empty_witness :
  "acme" <> ""
  /\ unsetOrEmpty fallback_env "GOOGLE_CLOUD_PROJECT"
  /\ fallback_env !! "GOOGLE_CLOUD_PROJECT_ID" = Some "acme"
  /\ projectId fallback_env = JStr "acme".
Proof.
  assert (H1 : "acme" <> "") by discriminate.
  assert (H2 : unsetOrEmpty fallback_env "GOOGLE_CLOUD_PROJECT") by (right; reflexivity).
  assert (H3 : fallback_env !! "GOOGLE_CLOUD_PROJECT_ID" = Some "acme") by reflexivity.
  split; [exact H1|]. split; [exact H2|]. split; [exact H3|].
  exact (projectId_first_non_empty fallback_env "acme" H1 (or_intror (conj H2 H3))).
Defined.

Lemma loadSettings_without_identifier_witness :
  unsetOrEmpty empty_env "GOOGLE_CLOUD_PROJECT"
  /\ unsetOrEmpty empty_env "GOOGLE_CLOUD_PROJECT_ID"
  /\ fst (loadSettings empty_env (handingOut (answering (response 200 (JObj [])))) () ())
     = Fulfilled JNull.
Proof.
  assert (H1 : unsetOrEmpty empty_env "GOOGLE_CLOUD_PROJECT") by (right; reflexivity).
  assert (H2 : unsetOrEmpty empty_env "GOOGLE_CLOUD_PROJECT_ID") by (left; reflexivity).
  split; [exact H1|]. split; [exact H2|].
  exact (f_equal fst
           (proj1 (loadSettings_without_identifier empty_env
                     (handingOut (answering (response 200 (JObj [])))) () () H1 H2))).
Defined.

Lemma loadSettings_request_url_witness :
  projectId acme_env = JStr "acme"
  /\ "acme" <> ""
  /\ In (ClientRequest
        {| url := "https://storage.googleapis.com/storage/v1/b/acme-gemini-cli-settings/o/settings.json?alt=media";
           method := "GET" |})
     (snd (loadSettings acme_env (handingOut (answering (response 200 (JObj [])))) () ())).
Proof.
  assert (H1 : projectId acme_env = JStr "acme") by reflexivity.
  assert (H2 : "acme" <> "") by discriminate.
  split; [exact H1|]. split; [exact H2|].
  exact (proj2 (loadSettings_request_url acme_env
                  (handingOut (answering (response 200 (JObj [])))) () () "acme" H1 H2)
           (answering (response 200 (JObj []))) eq_refl).
Defined.

Lemma loadSettings_passes_object_through_witness :
  fst (loadSettings acme_env
         (handingOut (answering (response 200 (JObj [("a", JNum (Int 1))])))) () ())
  = Fulfilled (JObj [("a", JNum (Int 1))]).
Proof.
  assert (H1 : projectId acme_env = JStr "acme") by reflexivity.
  assert (H2 : "acme" <> "") by discriminate.
  rewrite (loadSettings_passes_object_through acme_env
             (handingOut (answering (response 200 (JObj [("a", JNum (Int 1))])))) () ()
             "acme" (answering (response 200 (JObj [("a", JNum (Int 1))])))
             (response 200 (JObj [("a", JNum (Int 1))])) [("a", JNum (Int 1))]
             H1 H2 eq_refl eq_refl eq_refl eq_refl).
  reflexivity.
Defined.

Lemma loadSettings_non_200_witness :
  strictEqualsNumber (JNum (Int 500)) 200 = false
  /\ fst (loadSettings acme_env (handingOut (answering (response 500 JNull))) () ())
     = Fulfilled JNull
  /\ errorLogs (snd (loadSettings acme_env (handingOut (answering (response 500 JNull))) () ()))
     = [].
Proof.
  assert (H1 : projectId acme_env = JStr "acme") by reflexivity.
  assert (H2 : "acme" <> "") by discriminate.
  assert (H3 : strictEqualsNumber (JNum (Int 500)) 200 = false) by reflexivity.
  destruct (loadSettings_non_200 acme_env (handingOut (answering (response 500 JNull))) () ()
              "acme" (answering (response 500 JNull)) (response 500 JNull) (JNum (Int 500))
              H1 H2 eq_refl eq_refl eq_refl H3) as (Hnull & Hlogs & _).
  split; [exact H3|]. split; [exact Hnull|exact Hlogs].
Defined.

(** An error as the HTTP client raises it for a missing bucket. *)
Lemma loadSettings_forbidden_or_not_found_witness :
  carriesStatus
    (JError "GaxiosError" "Not Found" [("response", JObj [("status", JNum (Int 404))])]) 404
  /\ fst (loadSettings acme_env
            (handingOut
               (raising (JError "GaxiosError" "Not Found"
                           [("response", JObj [("status", JNum (Int 404))])]))) () ())
     = Fulfilled JNull.
Proof.
  assert (H1 : projectId acme_env = JStr "acme") by reflexivity.
  assert (H2 : "acme" <> "") by discriminate.
  assert (H3 : carriesStatus
                 (JError "GaxiosError" "Not Found"
                    [("response", JObj [("status", JNum (Int 404))])]) 404).
  { right. exists JUndefined, (JObj [("status", JNum (Int 404))]).
    split; [reflexivity|]. split; [reflexivity|]. split; reflexivity. }
  split; [exact H3|].
  rewrite (loadSettings_forbidden_or_not_found acme_env
             (handingOut
                (raising (JError "GaxiosError" "Not Found"
                            [("response", JObj [("status", JNum (Int 404))])]))) () ()
             "acme"
             (raising (JError "GaxiosError" "Not Found"
                         [("response", JObj [("status", JNum (Int 404))])]))
             (JError "GaxiosError" "Not Found"
                [("response", JObj [("status", JNum (Int 404))])])
             404 H1 H2 eq_refl eq_refl (or_intror eq_refl) H3).
  reflexivity.
Defined.

Lemma loadSettings_client_construction_fails_witness :
  ToString (JError "Error" "network down" []) = Value "Error: network down"
  /\ fst (loadSettings acme_env (unavailable (JError "Error" "network down" [])) () ())
     = Fulfilled JNull.
Proof.
  assert (H : ToString (JError "Error" "network down" []) = Value "Error: network down")
    by reflexivity.
  split; [exact H|].
  exact (proj1 (loadSettings_client_construction_fails acme_env
                  (unavailable (JError "Error" "network down" [])) () ()
                  (JError "Error" "network down" []) "Error: network down" eq_refl H)).
Defined.

Lemma loadSettings_array_body_accepted_witness :
  loadSettings acme_env
    (handingOut (answering (response 200 (JArr [JNum (Int 1); JNum (Int 2); JNum (Int 3)]))))
    () ()
  = (Fulfilled (JArr [JNum (Int 1); JNum (Int 2); JNum (Int 3)]),
     requested "acme" () () ++ [DebugLog "Cloud Settings: Successfully loaded."]).
Proof.
  assert (H1 : projectId acme_env = JStr "acme") by reflexivity.
  assert (H2 : "acme" <> "") by discriminate.
  exact (proj1 (loadSettings_array_body_accepted acme_env
                  (handingOut (answering (response 200 (JArr [JNum (Int 1); JNum (Int 2); JNum (Int 3)]))))
                  () () "acme"
                  (answering (response 200 (JArr [JNum (Int 1); JNum (Int 2); JNum (Int 3)])))
                  (response 200 (JArr [JNum (Int 1); JNum (Int 2); JNum (Int 3)]))
                  [JNum (Int 1); JNum (Int 2); JNum (Int 3)]
                  H1 H2 eq_refl eq_refl eq_refl eq_refl)).
Defined.

(** An error that carries 404 and cannot be rendered is no obstacle: the
    inner handler returns before anything renders it. *)
Lemma loadSettings_never_raises_witness :
  exists v,
    fst (loadSettings acme_env
           (handingOut (raising (JObj [("code", JNum (Int 404)); ("toString", JNull)])))
           () ())
    = Fulfilled v
    /\ nullOrDocument v.
Proof.
  apply (loadSettings_never_raises acme_env
           (handingOut (raising (JObj [("code", JNum (Int 404)); ("toString", JNull)])))
           () ()).
  - intros e H. discriminate H.
  - intros p c e status Hp Hc He Hs Hk. injection Hc as <-. injection He as <-.
    injection Hs as <-. discriminate Hk.
Defined.

(** ** Where the outer handler falls short *)

(** C1, on the code. The outer handler is there to turn every failure into
    null, but it first renders the error for its log line: when
    client.request raises a symbol, the inner handler throws it again, the
    template literal of line 88 raises a TypeError inside the handler, and
    the promise of loadSettings is rejected. So it is not true that
    loadSettings resolves whatever the collaborators do. *)
Lemma loadSettings_raises_on_symbol_from_request :
  fst (loadSettings acme_env (handingOut (raising (JSymbol "timeout"))) () ())
  = Rejected (TypeError "Cannot convert a Symbol value to a string")
  /\ ~ (forall (process_env : gmap string string)
               (getOauthClient : unit -> unit -> Settled Client)
               (config authType : unit),
          exists v,
            fst (loadSettings process_env getOauthClient config authType) = Fulfilled v
            /\ nullOrDocument v).
Proof.
  assert (H : fst (loadSettings acme_env (handingOut (raising (JSymbol "timeout"))) () ())
              = Rejected (TypeError "Cannot convert a Symbol value to a string"))
    by reflexivity.
  split; [exact H|].
  intros Hall.
  destruct (Hall acme_env (handingOut (raising (JSymbol "timeout"))) () ()) as (v & Hv & _).
  rewrite H in Hv. discriminate Hv.
Qed.

(** C8, on the code. When getOauthClient raises a symbol, the outer handler
    is entered, but the template literal of line 88 raises a TypeError
    while it renders the error for the log line: nothing is logged, the
    handler does not reach its return, and the promise of loadSettings is
    rejected instead of resolving to null. So it is not true that
    loadSettings resolves to null for every error value. *)
Lemma loadSettings_raises_on_symbol_from_factory :
  loadSettings acme_env (unavailable (JSymbol "offline")) () ()
  = (Rejected (TypeError "Cannot convert a Symbol value to a string"),
     [DebugLog ("Cloud Settings: Attempting to fetch from " +:+ settingsUrl "acme");
      GetOauthClient () ()])
  /\ ~ (forall (process_env : gmap string string)
               (getOauthClient : unit -> unit -> Settled Client)
               (config authType : unit) (e : JsVal),
          getOauthClient authType config = Rejected e ->
          fst (loadSettings process_env getOauthClient config authType) = Fulfilled JNull).
Proof.
  assert (H : loadSettings acme_env (unavailable (JSymbol "offline")) () ()
              = (Rejected (TypeError "Cannot convert a Symbol value to a string"),
                 [DebugLog ("Cloud Settings: Attempting to fetch from " +:+ settingsUrl "acme");
                  GetOauthClient () ()]))
    by reflexivity.
  split; [exact H|].
  intros Hall.
  specialize (Hall acme_env (unavailable (JSymbol "offline")) () () (JSymbol "offline") eq_refl).
  rewrite H in Hall. discriminate Hall.
Qed.

(** ** Further properties of [loadSettings] *)

Section Further.

Context {Config AuthType : Type}.
Implicit Types (process_env : gmap string string)
  (getOauthClient : AuthType -> Config -> Settled Client)
  (config : Config) (authType : AuthType)
  (trace : list (Event Config AuthType)).

Lemma strictEqualsNumber_spec (v : JsVal) (k : Z) :
  strictEqualsNumber v k = true <-> v = JNum (Int k).
Proof.
  split; [|intros ->; cbn; apply Z.eqb_refl].
  destruct v as [| | | [| |z] | | | | | |]; cbn; try discriminate.
  intros H. apply Z.eqb_eq in H. now subst.
Qed.

Lemma networkCalls_app trace trace' :
  networkCalls (trace ++ trace') = networkCalls trace ++ networkCalls trace'.
Proof. apply List.filter_app. Qed.

Lemma networkCalls_logLines trace :
  Forall isLogLine trace -> networkCalls trace = [].
Proof.
  induction 1 as [|ev rest Hev _ IH]; [reflexivity|].
  destruct ev; cbn in *; (exact IH || contradiction).
Qed.

(** What the outer handler leaves behind when it does not raise. *)
Lemma outerCatch_fulfilled (e v : JsVal) trace :
  fst (outerCatch e trace) = Fulfilled v ->
  v = JNull
  /\ exists text,
       ToString e = Value text
       /\ snd (outerCatch e trace)
          = trace ++ [DebugLog ("Cloud Settings: Error loading settings: " +:+ text)].
Proof.
  unfold outerCatch. destruct (ToString e) as [text|x]; cbn; [|discriminate].
  intros [= <-]. eauto.
Qed.

Lemma outerCatch_rejected (e x : JsVal) trace :
  fst (outerCatch e trace) = Rejected x -> ToString e = Exception x.
Proof.
  unfold outerCatch. destruct (ToString e) as [text|y]; cbn; [discriminate|].
  now intros [= <-].
Qed.

Lemma outerCatch_runtimeError (x : JsVal) trace :
  runtimeError x ->
  exists text,
    outerCatch x trace
    = (Fulfilled JNull,
       trace ++ [DebugLog ("Cloud Settings: Error loading settings: " +:+ text)]).
Proof.
  intros [text Ht]%runtimeError_stringifiable. exists text.
  now apply outerCatch_renders.
Qed.

Lemma shape_check_fails (data : JsVal) :
  negb (ToBoolean data) || negb (String.eqb (typeof data) "object") = true
  <-> ToBoolean data = false \/ typeof data <> "object".
Proof.
  rewrite orb_true_iff, !negb_true_iff, String.eqb_neq. reflexivity.
Qed.

(** X1. With status 200, a body that is falsy (null, undefined, a missing
    [data] field, 0, the empty string, false, NaN) or whose type is not
    object makes loadSettings resolve to null with the malformed-payload
    message as the only line after the request. *)
Theorem loadSettings_malformed_body
    process_env getOauthClient config authType p c res data :
  projectId process_env = JStr p -> p <> "" ->
  getOauthClient authType config = Fulfilled c ->
  request c (settingsRequest p) = Fulfilled res ->
  Get res "status" = Value (JNum (Int 200)) ->
  Get res "data" = Value data ->
  ToBoolean data = false \/ typeof data <> "object" ->
  loadSettings process_env getOauthClient config authType
  = (Fulfilled JNull, requested p config authType ++ [ConsoleError malformedMessage]).
Proof.
  intros Hp Hne Hf Hr Hs Hd Hshape. apply shape_check_fails in Hshape.
  rewrite (loadSettings_response _ _ _ _ _ _ _ Hp Hne Hf Hr), Hs, Hd.
  cbn [strictEqualsNumber negb]. rewrite Z.eqb_refl. cbn [negb].
  now rewrite Hshape.
Qed.

(** X2. loadSettings resolves to a value other than null only on one path:
    an identifier was resolved, the client was obtained, the request was
    answered with status 200, and the value is the body of that answer, a
    truthy value of type object; the success line closes the trace. *)
Theorem loadSettings_document_origin process_env getOauthClient config authType v :
  fst (loadSettings process_env getOauthClient config authType) = Fulfilled v ->
  v <> JNull ->
  exists p c res,
    projectId process_env = JStr p /\ p <> ""
    /\ getOauthClient authType config = Fulfilled c
    /\ request c (settingsRequest p) = Fulfilled res
    /\ Get res "status" = Value (JNum (Int 200))
    /\ Get res "data" = Value v
    /\ ToBoolean v = true /\ typeof v = "object"
    /\ snd (loadSettings process_env getOauthClient config authType)
       = requested p config authType ++ [DebugLog "Cloud Settings: Successfully loaded."].
Proof.
  intros Hv Hnn.
  assert (Hcatch : forall e trace, fst (outerCatch e trace) = Fulfilled v -> False).
  { intros e trace [-> _]%outerCatch_fulfilled. now apply Hnn. }
  destruct (ToBoolean (projectId process_env)) eqn:Hb;
    [|rewrite loadSettings_skips in Hv by trivial; injection Hv as <-; now destruct Hnn].
  destruct (projectId_truthy _ Hb) as (p & Hp & Hne).
  destruct (getOauthClient authType config) as [c|e] eqn:Hf;
    [|rewrite (loadSettings_client_fails _ _ _ _ _ _ Hp Hne Hf) in Hv;
      now apply Hcatch in Hv].
  destruct (request c (settingsRequest p)) as [res|e] eqn:Hr.
  - rewrite (loadSettings_response _ _ _ _ _ _ _ Hp Hne Hf Hr) in Hv |- *.
    destruct (Get res "status") as [status|x] eqn:Hs; [|now apply Hcatch in Hv].
    destruct (strictEqualsNumber status 200) eqn:H200; cbn [negb] in Hv |- *.
    + apply strictEqualsNumber_spec in H200 as ->.
      destruct (Get res "data") as [data|x] eqn:Hd; [|now apply Hcatch in Hv].
      destruct (negb (ToBoolean data) || negb (String.eqb (typeof data) "object"))
        eqn:Hshape; cbn in Hv; injection Hv as <-; [now destruct Hnn|].
      apply orb_false_iff in Hshape as [Htruthy Hobject].
      apply negb_false_iff in Htruthy, Hobject. apply String.eqb_eq in Hobject.
      exists p, c, res. repeat (split; [assumption || reflexivity|]). reflexivity.
    + destruct (ToString status); [|now apply Hcatch in Hv].
      cbn in Hv. injection Hv as <-. now destruct Hnn.
  - rewrite (loadSettings_request_fails _ _ _ _ _ _ _ Hp Hne Hf Hr) in Hv.
    destruct (errorStatus e); [|now apply Hcatch in Hv].
    destruct (strictEqualsNumber _ 403 || strictEqualsNumber _ 404);
      [|now apply Hcatch in Hv].
    destruct (ToString _); [|now apply Hcatch in Hv].
    cbn in Hv. injection Hv as <-. now destruct Hnn.
Qed.

(** X3. The standard error channel receives at most one message per call,
    always the malformed-payload message, and only after a response with
    status 200 whose body fails the shape check; the call then resolves to
    null. *)
Theorem loadSettings_error_channel process_env getOauthClient config authType :
  errorLogs (snd (loadSettings process_env getOauthClient config authType)) = []
  \/ (errorLogs (snd (loadSettings process_env getOauthClient config authType))
      = [malformedMessage]
      /\ fst (loadSettings process_env getOauthClient config authType) = Fulfilled JNull
      /\ exists p c res data,
           projectId process_env = JStr p
           /\ getOauthClient authType config = Fulfilled c
           /\ request c (settingsRequest p) = Fulfilled res
           /\ Get res "status" = Value (JNum (Int 200))
           /\ Get res "data" = Value data
           /\ (ToBoolean data = false \/ typeof data <> "object")).
Proof.
  destruct (ToBoolean (projectId process_env)) eqn:Hb;
    [|rewrite loadSettings_skips by trivial; now left].
  destruct (projectId_truthy _ Hb) as (p & Hp & Hne).
  destruct (getOauthClient authType config) as [c|e] eqn:Hf;
    [|rewrite (loadSettings_client_fails _ _ _ _ _ _ Hp Hne Hf), outerCatch_errorLogs;
      now left].
  destruct (request c (settingsRequest p)) as [res|e] eqn:Hr.
  - rewrite (loadSettings_response _ _ _ _ _ _ _ Hp Hne Hf Hr).
    destruct (Get res "status") as [status|x] eqn:Hs;
      [|rewrite outerCatch_errorLogs; now left].
    destruct (strictEqualsNumber status 200) eqn:H200; cbn [negb].
    + apply strictEqualsNumber_spec in H200 as ->.
      destruct (Get res "data") as [data|x] eqn:Hd;
        [|rewrite outerCatch_errorLogs; now left].
      destruct (negb (ToBoolean data) || negb (String.eqb (typeof data) "object"))
        eqn:Hshape; [|now left].
      right. split; [reflexivity|]. split; [reflexivity|].
      exists p, c, res, data. apply shape_check_fails in Hshape. auto 10.
    + destruct (ToString status); [now left|].
      rewrite outerCatch_errorLogs. now left.
  - rewrite (loadSettings_request_fails _ _ _ _ _ _ _ Hp Hne Hf Hr).
    destruct (errorStatus e); [|rewrite outerCatch_errorLogs; now left].
    destruct (strictEqualsNumber _ 403 || strictEqualsNumber _ 404);
      [|rewrite outerCatch_errorLogs; now left].
    destruct (ToString _); [now left|].
    rewrite outerCatch_errorLogs. now left.
Qed.

(** X4. The network calls of one invocation: none without an identifier;
    with an identifier, getOauthClient is called exactly once, with the
    authentication mode and configuration of the caller, and client.request
    is called exactly once after it when a client was obtained and not at
    all when it was not. There is no retry. *)
Theorem loadSettings_network_calls process_env getOauthClient config authType :
  (ToBoolean (projectId process_env) = false ->
   networkCalls (snd (loadSettings process_env getOauthClient config authType)) = [])
  /\ (forall p,
        projectId process_env = JStr p -> p <> "" ->
        networkCalls (snd (loadSettings process_env getOauthClient config authType))
        = GetOauthClient authType config
          :: match getOauthClient authType config with
             | Fulfilled _ => [ClientRequest (settingsRequest p)]
             | Rejected _ => []
             end).
Proof.
  split.
  - intros Hb. now rewrite loadSettings_skips.
  - intros p Hp Hne.
    destruct (getOauthClient authType config) as [c|e] eqn:Hf.
    + destruct (loadSettings_trace _ _ _ _ _ _ Hp Hne Hf) as (tail & -> & Htail).
      rewrite networkCalls_app, (networkCalls_logLines _ Htail). reflexivity.
    + rewrite (loadSettings_client_fails _ _ _ _ _ _ Hp Hne Hf).
      destruct (outerCatch_trace e
                  [DebugLog ("Cloud Settings: Attempting to fetch from " +:+ settingsUrl p);
                   GetOauthClient authType config]) as (tail & -> & Htail).
      rewrite networkCalls_app, (networkCalls_logLines _ Htail). reflexivity.
Qed.

(** X5. The promise of loadSettings is rejected in exactly one situation:
    an identifier was resolved, getOauthClient or client.request raised an
    error that the inner handler did not turn into null (for a request
    error: its status is neither 403 nor 404), and converting that error to
    a string for the log line of the outer handler raised. The rejection
    reason is what that conversion raised. *)
Theorem loadSettings_rejection process_env getOauthClient config authType x :
  fst (loadSettings process_env getOauthClient config authType) = Rejected x
  <-> exists p e,
        projectId process_env = JStr p /\ p <> ""
        /\ ToString e = Exception x
        /\ (getOauthClient authType config = Rejected e
            \/ exists c status,
                 getOauthClient authType config = Fulfilled c
                 /\ request c (settingsRequest p) = Rejected e
                 /\ errorStatus e = Value status
                 /\ strictEqualsNumber status 403 || strictEqualsNumber status 404
                    = false).
Proof.
  split.
  - intros Hx.
    assert (Hruntime : forall y trace,
               runtimeError y -> fst (outerCatch y trace) = Rejected x -> False).
    { intros y trace Hy H. apply runtimeError_stringifiable in Hy.
      rewrite (outerCatch_stringifiable _ _ Hy) in H. discriminate. }
    destruct (ToBoolean (projectId process_env)) eqn:Hb;
      [|rewrite loadSettings_skips in Hx by trivial; discriminate].
    destruct (projectId_truthy _ Hb) as (p & Hp & Hne).
    exists p.
    destruct (getOauthClient authType config) as [c|e] eqn:Hf.
    2:{ rewrite (loadSettings_client_fails _ _ _ _ _ _ Hp Hne Hf) in Hx.
        apply outerCatch_rejected in Hx. exists e. auto. }
    destruct (request c (settingsRequest p)) as [res|e] eqn:Hr.
    + exfalso. rewrite (loadSettings_response _ _ _ _ _ _ _ Hp Hne Hf Hr) in Hx.
      destruct (Get res "status") as [status|y] eqn:Hs;
        [|eauto using Get_raises].
      destruct (negb (strictEqualsNumber status 200)).
      * destruct (ToString status) eqn:Ht; [discriminate|eauto using ToString_raises].
      * destruct (Get res "data") as [data|y] eqn:Hd; [|eauto using Get_raises].
        destruct (negb (ToBoolean data) || negb (String.eqb (typeof data) "object"));
          discriminate.
    + rewrite (loadSettings_request_fails _ _ _ _ _ _ _ Hp Hne Hf Hr) in Hx.
      destruct (errorStatus e) as [status|y] eqn:Hs;
        [|exfalso; eauto using errorStatus_raises].
      destruct (strictEqualsNumber status 403 || strictEqualsNumber status 404) eqn:Hk.
      * exfalso. destruct (ToString status) eqn:Ht;
          [discriminate|eauto using ToString_raises].
      * apply outerCatch_rejected in Hx. exists e.
        split; [assumption|]. split; [assumption|]. split; [assumption|].
        right. exists c, status. auto.
  - intros (p & e & Hp & Hne & Ht & [Hf | (c & status & Hf & Hr & Hs & Hk)]).
    + rewrite (loadSettings_client_fails _ _ _ _ _ _ Hp Hne Hf).
      unfold outerCatch. now rewrite Ht.
    + rewrite (loadSettings_request_fails _ _ _ _ _ _ _ Hp Hne Hf Hr), Hs, Hk.
      unfold outerCatch. now rewrite Ht.
Qed.

(** X6. A raised request error whose status, read as line 58 reads it, is
    neither the number 403 nor the number 404 is not an expected absence:
    it is thrown again, and when it can be rendered the outer handler logs
    it and loadSettings resolves to null. A truthy [code] decides alone:
    the status of the response is then not looked at. *)
Theorem loadSettings_unexpected_request_error
    process_env getOauthClient config authType p c e status text :
  projectId process_env = JStr p -> p <> "" ->
  getOauthClient authType config = Fulfilled c ->
  request c (settingsRequest p) = Rejected e ->
  errorStatus e = Value status ->
  strictEqualsNumber status 403 = false ->
  strictEqualsNumber status 404 = false ->
  ToString e = Value text ->
  loadSettings process_env getOauthClient config authType
  = (Fulfilled JNull,
     requested p config authType
     ++ [DebugLog ("Cloud Settings: Error loading settings: " +:+ text)]).
Proof.
  intros Hp Hne Hf Hr Hs H403 H404 Ht.
  rewrite (loadSettings_request_fails _ _ _ _ _ _ _ Hp Hne Hf Hr), Hs, H403, H404.
  cbn [orb]. now apply outerCatch_renders.
Qed.

Lemma projectId_agree process_env process_env' getOauthClient config authType :
  projectId process_env = projectId process_env' ->
  loadSettings process_env getOauthClient config authType
  = loadSettings process_env' getOauthClient config authType.
Proof.
  intros H. unfold loadSettings, loadSettings_body. now rewrite H.
Qed.

(** X7. A variable set to the empty string counts as unset: for either of
    the two names, loadSettings does the same with the name mapped to the
    empty string as with the name removed from the environment. *)
Theorem loadSettings_empty_as_unset
    process_env getOauthClient config authType (name : string) :
  name = "GOOGLE_CLOUD_PROJECT" \/ name = "GOOGLE_CLOUD_PROJECT_ID" ->
  loadSettings (<[name := ""]> process_env) getOauthClient config authType
  = loadSettings (delete name process_env) getOauthClient config authType.
Proof.
  intros [-> | ->].
  - apply projectId_agree. unfold projectId, logicalOr, env.
    rewrite lookup_insert_eq, lookup_delete_eq. cbn.
    now rewrite lookup_insert_ne, lookup_delete_ne by discriminate.
  - destruct (ToBoolean (env process_env "GOOGLE_CLOUD_PROJECT")) eqn:Hprimary.
    + apply projectId_agree. unfold projectId, logicalOr, env in *.
      rewrite (lookup_insert_ne _ "GOOGLE_CLOUD_PROJECT_ID" "GOOGLE_CLOUD_PROJECT")
        by discriminate.
      rewrite (lookup_delete_ne _ "GOOGLE_CLOUD_PROJECT_ID" "GOOGLE_CLOUD_PROJECT")
        by discriminate.
      now rewrite Hprimary.
    + rewrite !loadSettings_skips; [reflexivity| |]; unfold projectId, logicalOr, env in *.
      * rewrite (lookup_delete_ne _ "GOOGLE_CLOUD_PROJECT_ID" "GOOGLE_CLOUD_PROJECT")
          by discriminate.
        now rewrite Hprimary, lookup_delete_eq.
      * rewrite (lookup_insert_ne _ "GOOGLE_CLOUD_PROJECT_ID" "GOOGLE_CLOUD_PROJECT")
          by discriminate.
        now rewrite Hprimary, lookup_insert_eq.
Qed.

Lemma Get_defined (v r : JsVal) (key key' : string) :
  Get v key = Value r -> exists r', Get v key' = Value r'.
Proof.
  destruct v; cbn; try discriminate; intros _; try (eexists; reflexivity).
  repeat case_match; eexists; reflexivity.
Qed.

(** X8. A call that resolves ends its trace with the line of the exit it
    took, and each line belongs to one exit: the skip line to a missing
    identifier; the "Skipped (Status ...)" line to a request error whose
    status is 403 or 404; the "Fetch failed" line to a response whose
    status is not 200; the malformed-payload message to a response with
    status 200 whose body fails the shape check; the success line to a
    response with status 200 whose body passes it, which is then the value
    resolved to; the line of the outer handler to an error that reached it,
    rendered in the line. Every exit but the success exit resolves to
    null. *)
Theorem loadSettings_outcome_line process_env getOauthClient config authType v :
  fst (loadSettings process_env getOauthClient config authType) = Fulfilled v ->
  exists init ev,
    snd (loadSettings process_env getOauthClient config authType) = init ++ [ev]
    /\ exitTaken process_env getOauthClient config authType v ev.
Proof.
  intros Hv.
  assert (Hcatch : forall e trace,
             reachesHandler process_env getOauthClient config authType e ->
             fst (outerCatch e trace) = Fulfilled v ->
             exists init ev,
               snd (outerCatch e trace) = init ++ [ev]
               /\ exitTaken process_env getOauthClient config authType v ev).
  { intros e trace He (-> & text & Ht & ->)%outerCatch_fulfilled.
    eexists _, _. split; [reflexivity|]. now apply exit_caught with e. }
  destruct (ToBoolean (projectId process_env)) eqn:Hb.
  2:{ rewrite loadSettings_skips in Hv |- * by trivial. injection Hv as <-.
      exists [],
        (DebugLog "Cloud Settings: No project ID found in environment variables; skipping.").
      split; [reflexivity|]. now apply exit_no_identifier. }
  destruct (projectId_truthy _ Hb) as (p & Hp & Hne).
  destruct (getOauthClient authType config) as [c|e] eqn:Hf.
  2:{ rewrite (loadSettings_client_fails _ _ _ _ _ _ Hp Hne Hf) in Hv |- *.
      apply Hcatch; [|assumption]. now apply caught_client with p. }
  destruct (request c (settingsRequest p)) as [res|e] eqn:Hr.
  - rewrite (loadSettings_response _ _ _ _ _ _ _ Hp Hne Hf Hr) in Hv |- *.
    destruct (Get res "status") as [status|x] eqn:Hs.
    2:{ apply Hcatch; [|assumption]. now apply caught_reading_response with p c res. }
    destruct (strictEqualsNumber status 200) eqn:H200; cbn [negb] in Hv |- *.
    + apply strictEqualsNumber_spec in H200 as ->.
      destruct (Get res "data") as [data|x] eqn:Hd.
      2:{ destruct (Get_defined _ _ "status" "data" Hs) as [r Hr']. congruence. }
      destruct (negb (ToBoolean data) || negb (String.eqb (typeof data) "object"))
        eqn:Hshape; injection Hv as <-.
      * eexists _, _. split; [reflexivity|].
        apply shape_check_fails in Hshape. now apply exit_malformed with p c res data.
      * apply orb_false_iff in Hshape as [Htruthy Hobject].
        apply negb_false_iff in Htruthy, Hobject. apply String.eqb_eq in Hobject.
        eexists _, _. split; [reflexivity|]. now apply exit_success with p c res.
    + destruct (ToString status) as [text|x] eqn:Ht.
      * injection Hv as <-. eexists _, _. split; [reflexivity|].
        now apply exit_status with p c res status.
      * apply Hcatch; [|assumption].
        now apply caught_rendering_status with p c res status.
  - rewrite (loadSettings_request_fails _ _ _ _ _ _ _ Hp Hne Hf Hr) in Hv |- *.
    destruct (errorStatus e) as [status|x] eqn:Hs.
    2:{ apply Hcatch; [|assumption]. now apply caught_reading_error with p c e. }
    destruct (strictEqualsNumber status 403 || strictEqualsNumber status 404) eqn:Hk.
    + destruct (ToString status) as [text|x] eqn:Ht.
      * injection Hv as <-. eexists _, _. split; [reflexivity|].
        now apply exit_expected_absence with p c e status.
      * exfalso. apply orb_true_iff in Hk as [Hk | Hk];
          apply strictEqualsNumber_spec in Hk; subst; discriminate.
    + apply Hcatch; [|assumption]. now apply caught_request with p c status.
Qed.

End Further.

(** ** Further properties of the singleton *)

(** X10. Starting with no instance, any sequence of calls constructs at most
    one object: nothing before the first getInstance, exactly one from it
    on; every getInstance of the sequence answers that object, and the
    static field holds it from then on. *)
Theorem getInstance_constructs_once {Config AuthType}
    (calls : list (Call Config AuthType)) (realm : Realm) :
  instance realm = None ->
  (forall r, In (Instance r) (answers calls realm) -> r = Some (constructed realm))
  /\ run calls realm
     = if existsb isGetInstance calls
       then {| instance := Some (constructed realm);
               constructed := S (constructed realm) |}
       else realm.
Proof.
  intros Hnone. induction calls as [|call calls [IHanswers IHrun]].
  - split; [intros r []|reflexivity].
  - destruct call as [|this process_env getOauthClient config authType].
    + assert (Hfirst : getInstance realm
                       = (Some (constructed realm),
                          {| instance := Some (constructed realm);
                             constructed := S (constructed realm) |})).
      { unfold getInstance. now rewrite Hnone. }
      destruct (run_present calls
                  {| instance := Some (constructed realm);
                     constructed := S (constructed realm) |}
                  (constructed realm) eq_refl) as (Hrun & Hinst & _).
      unfold run in *. cbn [answers fold_left perform existsb isGetInstance orb].
      rewrite Hfirst. cbn [fst snd]. split; [|exact Hrun].
      intros r [[= <-] | Hin]; [reflexivity|now apply Hinst].
    + unfold run in *. cbn [answers fold_left perform existsb isGetInstance orb fst snd].
      split; [|exact IHrun].
      intros r [[=] | Hin]. now apply IHanswers.
Qed.

(** ** The further properties at sample inputs *)

Lemma loadSettings_malformed_body_witness :
  Get bodyless "data" = Value JUndefined
  /\ ToBoolean JUndefined = false
  /\ loadSettings acme_env (handingOut (answering bodyless)) () ()
     = (Fulfilled JNull, requested "acme" () () ++ [ConsoleError malformedMessage]).
Proof.
  assert (H1 : projectId acme_env = JStr "acme") by reflexivity.
  assert (H2 : "acme" <> "") by discriminate.
  assert (H3 : Get bodyless "data" = Value JUndefined) by reflexivity.
  assert (H4 : ToBoolean JUndefined = false) by reflexivity.
  split; [exact H3|]. split; [exact H4|].
  exact (loadSettings_malformed_body acme_env (handingOut (answering bodyless)) () ()
           "acme" (answering bodyless) bodyless JUndefined
           H1 H2 eq_refl eq_refl eq_refl H3 (or_introl H4)).
Defined.

Lemma loadSettings_document_origin_witness :
  exists p c res,
    projectId acme_env = JStr p /\ p <> ""
    /\ handingOut (answering (response 200 (JObj [("a", JNum (Int 1))]))) () ()
       = Fulfilled c
    /\ request c (settingsRequest p) = Fulfilled res
    /\ Get res "status" = Value (JNum (Int 200))
    /\ Get res "data" = Value (JObj [("a", JNum (Int 1))])
    /\ ToBoolean (JObj [("a", JNum (Int 1))]) = true
    /\ typeof (JObj [("a", JNum (Int 1))]) = "object"
    /\ snd (loadSettings acme_env
              (handingOut (answering (response 200 (JObj [("a", JNum (Int 1))])))) () ())
       = requested p () () ++ [DebugLog "Cloud Settings: Successfully loaded."].
Proof.
  apply (loadSettings_document_origin acme_env
           (handingOut (answering (response 200 (JObj [("a", JNum (Int 1))])))) () ()
           (JObj [("a", JNum (Int 1))])).
  - reflexivity.
  - discriminate.
Defined.

Lemma loadSettings_network_calls_witness :
  projectId acme_env = JStr "acme"
  /\ "acme" <> ""
  /\ networkCalls
       (snd (loadSettings acme_env (handingOut (answering (response 500 JNull))) () ()))
     = [GetOauthClient () (); ClientRequest (settingsRequest "acme")].
Proof.
  assert (H1 : projectId acme_env = JStr "acme") by reflexivity.
  assert (H2 : "acme" <> "") by discriminate.
  split; [exact H1|]. split; [exact H2|].
  exact (proj2 (loadSettings_network_calls acme_env
                  (handingOut (answering (response 500 JNull))) () ()) "acme" H1 H2).
Defined.

Lemma loadSettings_rejection_witness :
  fst (loadSettings acme_env (unavailable (JSymbol "offline")) () ())
  = Rejected (TypeError "Cannot convert a Symbol value to a string").
Proof.
  apply (proj2 (loadSettings_rejection acme_env (unavailable (JSymbol "offline")) () ()
                  (TypeError "Cannot convert a Symbol value to a string"))).
  exists "acme", (JSymbol "offline").
  split; [reflexivity|]. split; [discriminate|]. split; [reflexivity|].
  left. reflexivity.
Defined.

(** The string "404" in [code] is not the number 404, and the 404 of the
    response is not consulted. *)
Lemma loadSettings_unexpected_request_error_witness :
  errorStatus conflictingError = Value (JStr "404")
  /\ ToString conflictingError = Value "GaxiosError: Conflict"
  /\ loadSettings acme_env (handingOut (raising conflictingError)) () ()
     = (Fulfilled JNull,
        requested "acme" () ()
        ++ [DebugLog "Cloud Settings: Error loading settings: GaxiosError: Conflict"]).
Proof.
  assert (H1 : projectId acme_env = JStr "acme") by reflexivity.
  assert (H2 : "acme" <> "") by discriminate.
  assert (H3 : errorStatus conflictingError = Value (JStr "404")) by reflexivity.
  assert (H4 : ToString conflictingError = Value "GaxiosError: Conflict") by reflexivity.
  split; [exact H3|]. split; [exact H4|].
  exact (loadSettings_unexpected_request_error acme_env
           (handingOut (raising conflictingError)) () () "acme" (raising conflictingError)
           conflictingError (JStr "404") "GaxiosError: Conflict"
           H1 H2 eq_refl eq_refl H3 eq_refl eq_refl H4).
Defined.

Lemma loadSettings_empty_as_unset_witness :
  loadSettings (<["GOOGLE_CLOUD_PROJECT" := ""]> fallback_env)
    (handingOut (answering (response 200 (JObj [])))) () ()
  = loadSettings (delete "GOOGLE_CLOUD_PROJECT" fallback_env)
      (handingOut (answering (response 200 (JObj [])))) () ().
Proof.
  exact (loadSettings_empty_as_unset fallback_env
           (handingOut (answering (response 200 (JObj [])))) () ()
           "GOOGLE_CLOUD_PROJECT" (or_introl eq_refl)).
Defined.

Lemma loadSettings_outcome_line_witness :
  exists init ev,
    snd (loadSettings acme_env (handingOut (answering (response 500 JNull))) () ())
    = init ++ [ev]
    /\ exitTaken acme_env (handingOut (answering (response 500 JNull))) () () JNull ev.
Proof.
  apply (loadSettings_outcome_line acme_env
           (handingOut (answering (response 500 JNull))) () () JNull).
  reflexivity.
Defined.

Lemma getInstance_constructs_once_witness :
  run [Call_loadSettings 0%nat acme_env (unavailable JNull) () ();
       Call_getInstance; Call_getInstance]
    {| instance := None; constructed := 0 |}
  = {| instance := Some 0%nat; constructed := 1 |}.
Proof.
  exact (proj2 (getInstance_constructs_once
                  [Call_loadSettings 0%nat acme_env (unavailable JNull) () ();
                   Call_getInstance; Call_getInstance]
                  {| instance := None; constructed := 0 |} eq_refl)).
Defined.
